(** * kube.py: command construction and result interpretation

    A shallow embedding of [src/kube.py], the Ansible module that drives
    [kubectl], together with the properties of its argument assembly
    ([KubeManager._flags]), its output classification
    ([KubeManager._execute]), its existence probe ([KubeManager._exists])
    and its lifecycle entry points ([create], [delete], [main]).

    Modelling conventions.
    - The module is Python 2 code: [filter] in [_execute] is the builtin
      that returns a list, and the strings coming back from the process
      are byte strings, so [split], [strip] and [splitlines] use the ASCII
      whitespace and line-break sets.
    - [module.fail_json] leaves the process through [SystemExit], which the
      [except Exception] clause of [_execute] does not intercept; it is the
      outcome [Exit (FailJson msg)].
    - The collaborators that are not part of the module are fields of an
      environment [Env]: [module.run_command], [module.get_bin_path],
      [os.path.isdir] and [re.findall] (reached through the wildcard import
      of [ansible.module_utils.basic]).
    - Every call of [run_command] is recorded, in order, in the [calls]
      component of the state. *)

From Stdlib Require Import String Ascii List Bool ZArith Lia DecimalString.
Import ListNotations.
Local Open Scope string_scope.
Local Open Scope list_scope.

Set Implicit Arguments.

(** ** Python string primitives *)

Module Py.

(** The characters [str.split()] and [str.strip()] treat as whitespace:
    space, and the range tab .. carriage return. *)
Definition isspace (c : ascii) : bool :=
  let n := nat_of_ascii c in
  Nat.eqb n 32 || (Nat.leb 9 n && Nat.leb n 13).

Definition of_rev (acc : list ascii) : string :=
  string_of_list_ascii (rev acc).

Definition flush (acc : list ascii) : list string :=
  match acc with
  | [] => []
  | _ :: _ => [of_rev acc]
  end.

(** [s.split()]: the maximal runs of non-whitespace characters. [acc] holds
    the characters of the run being read, last one first. *)
Fixpoint split_from (acc : list ascii) (s : string) : list string :=
  match s with
  | EmptyString => flush acc
  | String c s' =>
      if isspace c then flush acc ++ split_from [] s'
      else split_from (c :: acc) s'
  end.

Definition split (s : string) : list string := split_from [] s.

Definition is_lf (c : ascii) : bool := Nat.eqb (nat_of_ascii c) 10.
Definition is_cr (c : ascii) : bool := Nat.eqb (nat_of_ascii c) 13.

(** [s.splitlines()]: lines without their terminators ([\n], [\r] or
    [\r\n]); no empty piece after a final terminator. *)
Fixpoint splitlines_from (acc : list ascii) (s : string) : list string :=
  match s with
  | EmptyString => flush acc
  | String c s' =>
      if is_lf c then of_rev acc :: splitlines_from [] s'
      else if is_cr c then
        match s' with
        | String c' s'' =>
            if is_lf c' then of_rev acc :: splitlines_from [] s''
            else of_rev acc :: splitlines_from [] s'
        | EmptyString => of_rev acc :: splitlines_from [] s'
        end
      else splitlines_from (c :: acc) s'
  end.

Definition splitlines (s : string) : list string := splitlines_from [] s.

Fixpoint lstrip (s : string) : string :=
  match s with
  | EmptyString => EmptyString
  | String c s' => if isspace c then lstrip s' else s
  end.

Definition reverse (s : string) : string :=
  string_of_list_ascii (rev (list_ascii_of_string s)).

Definition rstrip (s : string) : string := reverse (lstrip (reverse s)).

(** [s.strip()] *)
Definition strip (s : string) : string := rstrip (lstrip s).

(** [sep.join(l)] *)
Definition join (sep : string) (l : list string) : string :=
  String.concat sep l.

(** [x in item] on strings: [x] occurs in [item] as a substring. *)
Fixpoint contains (x item : string) : bool :=
  String.prefix x item ||
  match item with
  | EmptyString => false
  | String _ item' => contains x item'
  end.

(** [l[-n:]] *)
Definition last_n {A : Type} (n : nat) (l : list A) : list A :=
  skipn (length l - n) l.

(** [str(i)] and [%d] for an integer. *)
Definition str_int (i : Z) : string :=
  NilZero.string_of_int (Z.to_int i).

(** Truth value of a list, of a string and of an optional string. *)
Definition truthy_list {A : Type} (l : list A) : bool :=
  match l with
  | [] => false
  | _ :: _ => true
  end.

Definition truthy_str (s : string) : bool :=
  match s with
  | EmptyString => false
  | String _ _ => true
  end.

Definition truthy (o : option string) : bool :=
  match o with
  | None => false
  | Some s => truthy_str s
  end.

(** The text of an optional string where it is known to be set. *)
Definition text (o : option string) : string :=
  match o with
  | None => EmptyString
  | Some s => s
  end.

End Py.

Notation "a +++ b" := (String.append a b)
  (at level 60, right associativity).

Definition dquote : string := String (ascii_of_nat 34) EmptyString.
Definition LF : string := String (ascii_of_nat 10) EmptyString.

(** ** Data model *)

(** The options of the module as [AnsibleModule] hands them over
    ([module.params]): [None] for an option left out, the defaults of the
    argument specification already filled in. *)
Record Params : Type := {
  p_kubectl : option string;
  p_command : string;
  p_resource : option (list string);
  p_name : option string;
  p_keyvars : option (list string);
  p_filter : option string;
  p_filename : option (list string);
  p_namespace : option string;
  p_label : option string;
  p_server : option string;
  p_kubeconfig : option string;
  p_ignore : bool;
  p_overwrite : bool;
  p_force : bool;
  p_all : bool;
  p_log_level : Z;
  p_state : string
}.

(** [self.results] *)
Record Results : Type := {
  changed : bool;
  meta : list string;
  msg : string
}.

(** The attributes of a [KubeManager] instance. *)
Record KubeManager : Type := {
  kubectl : string;
  base_cmd : list string;
  command : string;
  resource : list string;
  name : option string;
  keyvars : list string;
  filter : option string;
  filename : list string;
  namespace : option string;
  label : option string;
  server : option string;
  kubeconfig : option string;
  ignore : bool;
  overwrite : bool;
  force : bool;
  all : bool;
  log_level : Z;
  safe_commands : list string;
  changed_words : list string;
  isdir : bool;
  results : Results
}.

(** What [module.run_command(args)] gives back: the triple
    [(rc, out, err)], or an exception. *)
Inductive ProcessResult : Type :=
| Returned (rc : Z) (out err : string)
| Raised (exc : string).

(** What [re.findall(pattern, string)] gives back: the matches, or an
    exception for a pattern that does not compile. *)
Inductive FindallResult : Type :=
| Matches (ms : list string)
| ReError (exc : string).

(** How a run leaves the module other than by returning. *)
Inductive failure : Type :=
| FailJson (message : string)
| NameError (ident : string)
| IndexError.

Inductive outcome (A : Type) : Type :=
| Ok (a : A)
| Exit (f : failure).

Arguments Ok {A} a.
Arguments Exit {A} f.

(** The collaborators of the module. [run_command] receives the command
    vectors already run, oldest first, besides the one to run, so that the
    cluster may answer the same vector differently over time. *)
Record Env : Type := {
  run_command : list (list string) -> list string -> ProcessResult;
  get_bin_path : string -> outcome string;
  os_path_isdir : string -> bool;
  re_findall : string -> string -> FindallResult
}.

(** The state a run threads through its calls: the instance and the
    command vectors handed to [run_command] so far. *)
Record State : Type := {
  kube : KubeManager;
  calls : list (list string)
}.

(** *** Attribute assignment *)

Definition set_results (r : Results) (k : KubeManager) : KubeManager :=
  {| kubectl := kubectl k; base_cmd := base_cmd k; command := command k;
     resource := resource k; name := name k; keyvars := keyvars k;
     filter := filter k; filename := filename k; namespace := namespace k;
     label := label k; server := server k; kubeconfig := kubeconfig k;
     ignore := ignore k; overwrite := overwrite k; force := force k;
     all := all k; log_level := log_level k;
     safe_commands := safe_commands k; changed_words := changed_words k;
     isdir := isdir k; results := r |}.

Definition set_command (c : string) (k : KubeManager) : KubeManager :=
  {| kubectl := kubectl k; base_cmd := base_cmd k; command := c;
     resource := resource k; name := name k; keyvars := keyvars k;
     filter := filter k; filename := filename k; namespace := namespace k;
     label := label k; server := server k; kubeconfig := kubeconfig k;
     ignore := ignore k; overwrite := overwrite k; force := force k;
     all := all k; log_level := log_level k;
     safe_commands := safe_commands k; changed_words := changed_words k;
     isdir := isdir k; results := results k |}.

Definition set_resource (l : list string) (k : KubeManager) : KubeManager :=
  {| kubectl := kubectl k; base_cmd := base_cmd k; command := command k;
     resource := l; name := name k; keyvars := keyvars k;
     filter := filter k; filename := filename k; namespace := namespace k;
     label := label k; server := server k; kubeconfig := kubeconfig k;
     ignore := ignore k; overwrite := overwrite k; force := force k;
     all := all k; log_level := log_level k;
     safe_commands := safe_commands k; changed_words := changed_words k;
     isdir := isdir k; results := results k |}.

Definition set_meta (m : list string) (r : Results) : Results :=
  {| changed := changed r; meta := m; msg := msg r |}.

Definition set_changed (b : bool) (r : Results) : Results :=
  {| changed := b; meta := meta r; msg := msg r |}.

Definition set_msg (s : string) (r : Results) : Results :=
  {| changed := changed r; meta := meta r; msg := s |}.

(** ** The monad of a run: state and exit *)

Definition M (A : Type) : Type := State -> outcome A * State.

Definition ret {A : Type} (a : A) : M A := fun st => (Ok a, st).

Definition bind {A B : Type} (m : M A) (f : A -> M B) : M B :=
  fun st =>
    match m st with
    | (Ok a, st') => f a st'
    | (Exit e, st') => (Exit e, st')
    end.

Definition fail {A : Type} (e : failure) : M A := fun st => (Exit e, st).

(** [self.module.fail_json(msg=...)] *)
Definition fail_json {A : Type} (message : string) : M A :=
  fail (FailJson message).

Definition get_self : M KubeManager := fun st => (Ok (kube st), st).

Definition modify_self (f : KubeManager -> KubeManager) : M unit :=
  fun st => (Ok tt, {| kube := f (kube st); calls := calls st |}).

Definition modify_results (f : Results -> Results) : M unit :=
  modify_self (fun k => set_results (f (results k)) k).

(** Lift a computation that does not touch the state. *)
Definition lift {A : Type} (o : outcome A) : M A := fun st => (o, st).

Declare Scope run_scope.
Delimit Scope run_scope with run.
Notation "x <- m ;; k" := (bind m (fun x => k))
  (at level 61, m at next level, right associativity) : run_scope.
Notation "m ;; k" := (bind m (fun _ => k))
  (at level 61, right associativity) : run_scope.
Local Open Scope run_scope.

Definition when (b : bool) (m : M unit) : M unit :=
  if b then m else ret tt.

(** ** The operations of [KubeManager] *)

Section Operations.

Variable E : Env.

(** [[x.strip() for x in module.params.get(key) or []]] *)
Definition stripped (o : option (list string)) : list string :=
  map Py.strip (match o with Some l => l | None => [] end).

Definition initial_results : Results :=
  {| changed := false; meta := []; msg := "" |}.

(** [KubeManager.__init__] *)
Definition __init__ (p : Params) : outcome KubeManager :=
  match
    match p_kubectl p with
    | None => get_bin_path E "kubectl"
    | Some k => Ok k
    end
  with
  | Exit f => Exit f
  | Ok k =>
      let files := stripped (p_filename p) in
      Ok {| kubectl := k;
            base_cmd := [k];
            command := p_command p;
            resource := stripped (p_resource p);
            name := p_name p;
            keyvars := stripped (p_keyvars p);
            filter := p_filter p;
            filename := files;
            namespace := p_namespace p;
            label := p_label p;
            server := p_server p;
            kubeconfig := p_kubeconfig p;
            ignore := p_ignore p;
            overwrite := p_overwrite p;
            force := p_force p;
            all := p_all p;
            log_level := p_log_level p;
            safe_commands :=
              ["api-versions"; "cluster-info"; "describe"; "explain"; "get";
               "logs"; "version"];
            changed_words := ["created"; "deleted"; "labeled"; "modified"];
            isdir :=
              match files with
              | f0 :: _ => if os_path_isdir E f0 then true else false
              | [] => false
              end;
            results := initial_results |}
  end.

(** [KubeManager._filter] *)
Definition _filter (pattern string_ : string) : FindallResult :=
  re_findall E pattern string_.

(** [' '.join(err.split()[-2:]) == 'not found'] *)
Definition ends_not_found (err : string) : bool :=
  String.eqb (Py.join " " (Py.last_n 2 (Py.split err))) "not found".

(** [filter(lambda item: any(x in item for x in out.split()),
    self.changed_words)]: the vocabulary words in which some token of
    [out] occurs. *)
Definition changed_hits (self : KubeManager) (out : string) : list string :=
  List.filter (fun item => existsb (fun x => Py.contains x item) (Py.split out))
              (changed_words self).

(** The [else] branch of [_execute]: the output of an accepted run is
    turned into [meta], [changed] and [msg]. *)
Definition classify (args : list string) (out : string) : M unit :=
  self <- get_self ;;
  if Py.truthy (filter self) then
    match _filter (Py.text (filter self)) out with
    | Matches ms => modify_results (set_meta ms)
    | ReError exc =>
        fail_json ("error running kubectl (" +++ Py.join " " args +++
                   ") command: " +++ exc)
    end
  else
    modify_results (set_meta (Py.splitlines out)) ;;
    self <- get_self ;;
    when (Py.truthy_list (meta (results self)) &&
          Py.truthy_list (changed_hits self out))
         (modify_results (set_changed true)) ;;
    self <- get_self ;;
    modify_results
      (set_msg ("successfully ran kubectl (" +++ command self +++ ") command")).

(** [self.module.run_command(args)], recorded in [calls]. *)
Definition run (args : list string) : M ProcessResult :=
  fun st =>
    (Ok (run_command E (calls st) args),
     {| kube := kube st; calls := calls st ++ [args] |}).

(** [KubeManager._execute]. The body is one [try] block: an exception of
    [run_command] or of [re.findall] reaches the [except Exception] clause
    and becomes a [fail_json]; the [fail_json] calls inside the block leave
    through [SystemExit] and are not intercepted. *)
Definition _execute (cmd : list string) (exists_ : bool) : M unit :=
  self <- get_self ;;
  let args := base_cmd self ++ cmd in
  r <- run args ;;
  match r with
  | Raised exc =>
      fail_json ("error running kubectl (" +++ Py.join " " args +++
                 ") command: " +++ exc)
  | Returned rc out err =>
      if negb (Z.eqb rc 0) && negb (exists_ || isdir self) then
        fail_json ("error running kubectl (" +++ Py.join " " args +++
                   ") command (rc=" +++ Py.str_int rc +++ "), out='" +++ out +++
                   "', err='" +++ err +++ "'")
      else if negb (Z.eqb rc 0) && exists_ && ends_not_found err then
        ret tt
      else
        classify args out
  end.

(** [if b: cmd.append(tok)] *)
Definition append_if (b : bool) (toks cmd : list string) : list string :=
  if b then cmd ++ toks else cmd.

(** [KubeManager._flags]: the tokens are appended to [cmd] in the order of
    the source. *)
Definition _flags (self : KubeManager) (cmd : list string) (exists_ : bool)
  : outcome (list string) :=
  if negb (Py.truthy_list (filename self)) &&
     negb (Py.truthy_list (resource self)) then
    Exit (FailJson "filename or resource required")
  else
    let cmd :=
      match resource self with
      | r0 :: _ => if exists_ then cmd ++ [r0] else cmd ++ resource self
      | [] => cmd
      end in
    let cmd := append_if (Py.truthy (name self)) [Py.text (name self)] cmd in
    let cmd :=
      if Py.truthy_list (keyvars self) then
        if negb exists_ then cmd ++ keyvars self else cmd
      else cmd in
    let cmd := append_if (Py.truthy_list (filename self))
                 ["--filename=" +++ Py.join "," (filename self)] cmd in
    let cmd := append_if (Py.truthy (kubeconfig self))
                 ["--kubeconfig=" +++ Py.text (kubeconfig self)] cmd in
    let cmd := append_if (Py.truthy (namespace self))
                 ["--namespace=" +++ Py.text (namespace self)] cmd in
    let cmd := append_if (Py.truthy (label self))
                 ["--selector=" +++ Py.text (label self)] cmd in
    let cmd := append_if (Py.truthy (server self))
                 ["--server=" +++ Py.text (server self)] cmd in
    let cmd := append_if (ignore self) ["--ignore-not-found"] cmd in
    let cmd := append_if (overwrite self) ["--overwrite"] cmd in
    let cmd := append_if (force self) ["--force"] cmd in
    let cmd := append_if (all self) ["--all"] cmd in
    let cmd := append_if (negb (Z.eqb (log_level self) 0))
                 ["--v=" +++ Py.str_int (log_level self)] cmd in
    match cmd with
    | c0 :: _ =>
        Ok (append_if (String.eqb c0 "get") ["--no-headers"] cmd)
    | [] => Exit IndexError
    end.

(** [_flags] as a step of a run. *)
Definition flags (cmd : list string) (exists_ : bool) : M (list string) :=
  self <- get_self ;;
  lift (_flags self cmd exists_).

(** [KubeManager._exists] *)
Definition _exists : M bool :=
  cmd <- flags ["get"] true ;;
  _execute cmd true ;;
  self <- get_self ;;
  if Py.truthy_list (meta (results self)) then ret true else ret false.

(** [s in l] for a list of strings. *)
Definition mem (s : string) (l : list string) : bool :=
  existsb (String.eqb s) l.

(** [KubeManager.create]. The condition
    [check and self._exists() and self.command not in self.safe_commands]
    is evaluated from the left: the probe runs whenever [check] holds, and
    the safe set is looked at after it. *)
Definition create (check : bool) : M unit :=
  self <- get_self ;;
  when (String.eqb (command self) "delete")
       (fail_json "use state=absent instead of command=delete") ;;
  found <- (if check then _exists else ret false) ;;
  self <- get_self ;;
  if check && found && negb (mem (command self) (safe_commands self)) then
    ret tt
  else
    cmd <- flags [command self] false ;;
    _execute cmd false.

(** [KubeManager.delete]. The probe runs unless [force] is set. *)
Definition delete : M unit :=
  self <- get_self ;;
  found <- (if negb (force self) then _exists else ret true) ;;
  if negb (force self) && negb found then
    ret tt
  else
    modify_self (set_command "delete") ;;
    cmd <- flags ["delete"] false ;;
    _execute cmd false.

(** Evaluation of a name that is bound neither in the function nor in the
    module. *)
Definition unbound {A : Type} (ident : string) : M A :=
  fail (NameError ident).

(** [main]: the outcome handed to [module.exit_json] and the command
    vectors that were run. The branch for [latest] starts with the
    assignment [self.overwrite = True]; [main] has no [self] (its instance
    is [kubeman]), so the assignment raises and [create] is not reached. *)
Definition main (p : Params) : outcome Results * list (list string) :=
  match __init__ p with
  | Exit f => (Exit f, [])
  | Ok kubeman =>
      let state := p_state p in
      let body : M unit :=
        if String.eqb state "present" then create true
        else if String.eqb state "absent" then delete
        else if String.eqb state "latest" then
          (* self.overwrite = True *)
          unbound (A := unit) "self" ;;
          create false
        else fail_json ("Unrecognized state " +++ state +++ ".") in
      match body {| kube := kubeman; calls := [] |} with
      | (Ok _, st) => (Ok (results (kube st)), calls st)
      | (Exit f, st) => (Exit f, calls st)
      end
  end.

End Operations.

(** ** Specification-side definitions *)

(** The state after [args] has been handed to [run_command]. *)
Definition logged (args : list string) (st : State) : State :=
  {| kube := kube st; calls := calls st ++ [args] |}.

Definition opt_tok (b : bool) (toks : list string) : list string :=
  if b then toks else [].

(** The tokens [_flags] emits for the resource types. *)
Definition resource_tokens (self : KubeManager) (exists_ : bool)
  : list string :=
  match resource self with
  | r0 :: _ => if exists_ then [r0] else resource self
  | [] => []
  end.

(** The tokens [_flags] emits after the resource types, for a vector whose
    first token is [verb]. The resource types are not consulted. *)
Definition trailing (self : KubeManager) (exists_ : bool) (verb : string)
  : list string :=
  opt_tok (Py.truthy (name self)) [Py.text (name self)] ++
  opt_tok (Py.truthy_list (keyvars self) && negb exists_) (keyvars self) ++
  opt_tok (Py.truthy_list (filename self))
          ["--filename=" +++ Py.join "," (filename self)] ++
  opt_tok (Py.truthy (kubeconfig self))
          ["--kubeconfig=" +++ Py.text (kubeconfig self)] ++
  opt_tok (Py.truthy (namespace self))
          ["--namespace=" +++ Py.text (namespace self)] ++
  opt_tok (Py.truthy (label self)) ["--selector=" +++ Py.text (label self)] ++
  opt_tok (Py.truthy (server self)) ["--server=" +++ Py.text (server self)] ++
  opt_tok (ignore self) ["--ignore-not-found"] ++
  opt_tok (overwrite self) ["--overwrite"] ++
  opt_tok (force self) ["--force"] ++
  opt_tok (all self) ["--all"] ++
  opt_tok (negb (Z.eqb (log_level self) 0))
          ["--v=" +++ Py.str_int (log_level self)] ++
  opt_tok (String.eqb verb "get") ["--no-headers"].

(** The vocabulary and the safe set every instance is built with. *)
Definition vocabulary : list string :=
  ["created"; "deleted"; "labeled"; "modified"].

Definition safe_set : list string :=
  ["api-versions"; "cluster-info"; "describe"; "explain"; "get"; "logs";
   "version"].

(** The test of [_execute] on the words of the output: some vocabulary
    word has some whitespace-separated token of [out] as a substring. *)
Definition changed_word_test (out : string) : bool :=
  existsb (fun item => existsb (fun x => Py.contains x item) (Py.split out))
          vocabulary.

(** A non-zero exit that [_execute] lets through to the classification. *)
Definition tolerated (self : KubeManager) (exists_ : bool) (rc : Z)
  (err : string) : Prop :=
  rc <> 0%Z /\ (exists_ = true \/ isdir self = true) /\
  ~ (exists_ = true /\ ends_not_found err = true).

(** The message of the failure on a rejected non-zero exit. *)
Definition execution_error (args : list string) (rc : Z) (out err : string)
  : failure :=
  FailJson ("error running kubectl (" +++ Py.join " " args +++
            ") command (rc=" +++ Py.str_int rc +++ "), out='" +++ out +++
            "', err='" +++ err +++ "'").

(** The record [classify] leaves when no filter pattern is set. *)
Definition classified (self : KubeManager) (out : string) : Results :=
  {| changed :=
       changed (results self) ||
       (Py.truthy_list (Py.splitlines out) &&
        Py.truthy_list (changed_hits self out));
     meta := Py.splitlines out;
     msg := "successfully ran kubectl (" +++ command self +++ ") command" |}.

(** ** Concrete runs

    Inputs on which the definitions are evaluated further down. *)

(** A task that sets the given options and leaves the others at their
    defaults. *)
Definition task (verb : string) (res : option (list string))
  (nm : option string) (files : option (list string)) (pat : option string)
  (target : string) : Params :=
  {| p_kubectl := None; p_command := verb; p_resource := res; p_name := nm;
     p_keyvars := None; p_filter := pat; p_filename := files;
     p_namespace := None; p_label := None; p_server := None;
     p_kubeconfig := None; p_ignore := false; p_overwrite := false;
     p_force := false; p_all := false; p_log_level := 0%Z;
     p_state := target |}.

(** [re.findall] for a pattern that is a literal, non-empty word: its
    occurrences from left to right, none overlapping the one before. *)
Fixpoint literal_findall (pat : string) (skip : nat) (s : string)
  : list string :=
  match s with
  | EmptyString => []
  | String _ s' =>
      match skip with
      | S k => literal_findall pat k s'
      | O =>
          if String.prefix pat s
          then pat :: literal_findall pat (String.length pat - 1) s'
          else literal_findall pat 0 s'
      end
  end.

(** A host with [kubectl] in [/usr/bin], where the paths in [dirs] are
    directories, and a cluster that answers the n-th command of the run
    with the n-th element of [answers]. *)
Definition host (dirs : list string) (answers : list ProcessResult) : Env :=
  {| run_command := fun history _ =>
       nth (length history) answers (Returned 0 "" "");
     get_bin_path := fun _ => Ok "/usr/bin/kubectl";
     os_path_isdir := fun path => existsb (String.eqb path) dirs;
     re_findall := fun pat s => Matches (literal_findall pat 0 s) |}.

(** An instance as [__init__] builds it on [host], for the first task of
    [EXAMPLES] with the given verb and filter pattern. *)
Definition nginx_rc (verb : string) (pat : option string) (dir : bool)
  : KubeManager :=
  {| kubectl := "/usr/bin/kubectl"; base_cmd := ["/usr/bin/kubectl"];
     command := verb; resource := ["rc"]; name := Some "nginx";
     keyvars := []; filter := pat; filename := []; namespace := None;
     label := None; server := None; kubeconfig := None; ignore := false;
     overwrite := false; force := false; all := false; log_level := 0%Z;
     safe_commands := safe_set; changed_words := vocabulary; isdir := dir;
     results := {| changed := false; meta := []; msg := "" |} |}.

Definition fresh (k : KubeManager) : State := {| kube := k; calls := [] |}.

(** An instance with neither resource type nor file. *)
Definition untargeted : KubeManager :=
  set_resource [] (nginx_rc "apply" None false).

Definition not_found_stderr : string :=
  "Error from server (NotFound): pods " +++ dquote +++ "nginx" +++ dquote +++
  " not found".

Definition created_stdout : string :=
  "replicationcontroller " +++ dquote +++ "nginx" +++ dquote +++ " created".

(** ** Definitions for the run as a whole *)

Definition set_keyvars (l : list string) (k : KubeManager) : KubeManager :=
  {| kubectl := kubectl k; base_cmd := base_cmd k; command := command k;
     resource := resource k; name := name k; keyvars := l;
     filter := filter k; filename := filename k; namespace := namespace k;
     label := label k; server := server k; kubeconfig := kubeconfig k;
     ignore := ignore k; overwrite := overwrite k; force := force k;
     all := all k; log_level := log_level k;
     safe_commands := safe_commands k; changed_words := changed_words k;
     isdir := isdir k; results := results k |}.

(** A resource type or a file is given. *)
Definition targeted (self : KubeManager) : bool :=
  Py.truthy_list (filename self) || Py.truthy_list (resource self).

(** The vector of the existence probe, of the configured verb and of the
    removal, without the path of the binary. *)
Definition probe_vector (self : KubeManager) : list string :=
  "get" :: resource_tokens self true ++ trailing self true "get".

Definition action_vector (self : KubeManager) : list string :=
  command self :: resource_tokens self false ++
  trailing self false (command self).

Definition delete_vector (self : KubeManager) : list string :=
  "delete" :: resource_tokens self false ++ trailing self false "delete".

(** The instance once [delete] has assigned [self.command]. *)
Definition deleting (st : State) : State :=
  {| kube := set_command "delete" (kube st); calls := calls st |}.

(** What a step of a run may do to the state: it assigns nothing but
    [self.results] and [self.command]; it runs at most [n] commands, each
    of them the binary followed by a vector; it never clears [changed];
    and with a filter pattern set it assigns neither [changed] nor
    [msg]. *)
Definition evolves (n : nat) (st st' : State) : Prop :=
  (exists r c, kube st' = set_results r (set_command c (kube st))) /\
  (exists l,
     calls st' = calls st ++ l /\ length l <= n /\
     Forall (fun args => exists v, args = base_cmd (kube st) ++ v) l) /\
  (changed (results (kube st)) = true ->
   changed (results (kube st')) = true) /\
  (Py.truthy (filter (kube st)) = true ->
   changed (results (kube st')) = changed (results (kube st)) /\
   msg (results (kube st')) = msg (results (kube st))).

(** A string of whitespace only. *)
Fixpoint blank (s : string) : bool :=
  match s with
  | EmptyString => true
  | String c s' => Py.isspace c && blank s'
  end.

(** A string that neither starts nor ends with whitespace. *)
Definition lead_space (s : string) : bool :=
  match s with
  | EmptyString => false
  | String c _ => Py.isspace c
  end.

Definition trimmed (s : string) : bool :=
  negb (lead_space s) && negb (lead_space (Py.reverse s)).

Definition set_force (b : bool) (k : KubeManager) : KubeManager :=
  {| kubectl := kubectl k; base_cmd := base_cmd k; command := command k;
     resource := resource k; name := name k; keyvars := keyvars k;
     filter := filter k; filename := filename k; namespace := namespace k;
     label := label k; server := server k; kubeconfig := kubeconfig k;
     ignore := ignore k; overwrite := overwrite k; force := b;
     all := all k; log_level := log_level k;
     safe_commands := safe_commands k; changed_words := changed_words k;
     isdir := isdir k; results := results k |}.

(** A host like [E] whose [re.findall] rejects every pattern. *)
Definition rejecting (E : Env) : Env :=
  {| run_command := run_command E;
     get_bin_path := get_bin_path E;
     os_path_isdir := os_path_isdir E;
     re_findall := fun _ _ => ReError "unbalanced parenthesis" |}.

(** A host without [kubectl]. *)
Definition bare_host : Env :=
  {| run_command := fun _ _ => Raised "[Errno 2] No such file or directory";
     get_bin_path := fun _ =>
       Exit (FailJson "Failed to find required executable kubectl");
     os_path_isdir := fun _ => false;
     re_findall := fun _ _ => Matches [] |}.

(** A string without line feed and carriage return. *)
Fixpoint one_line (s : string) : bool :=
  match s with
  | EmptyString => true
  | String c s' => negb (Py.is_lf c) && negb (Py.is_cr c) && one_line s'
  end.


(** ** Auxiliary facts *)

(** A step that returned the pair [(o, st)] without running anything:
    the final state [st'] is the state it started from. *)
Ltac same_state st' :=
  let H := fresh "H" in
  let Hst := fresh "Hst" in
  intro H; injection H as _ Hst; subst st'.

(** The primitives on the strings the module meets. *)

Example split_tokens :
  Py.split ("  replicationcontroller " +++ LF +++ "nginx   created ") =
  ["replicationcontroller"; "nginx"; "created"].
Proof. reflexivity. Qed.

Example splitlines_lines :
  Py.splitlines ("po/a" +++ LF +++ LF +++ "po/b" +++ LF) = ["po/a"; ""; "po/b"] /\
  Py.splitlines "" = [] /\
  Py.splitlines LF = [""].
Proof. repeat split. Qed.

Example strip_path : Py.strip "  /tmp/nginx.yml " = "/tmp/nginx.yml".
Proof. reflexivity. Qed.

Example str_int_values :
  Py.str_int 0 = "0" /\ Py.str_int 4 = "4" /\ Py.str_int (-12) = "-12".
Proof. repeat split. Qed.

Example ends_not_found_values :
  ends_not_found not_found_stderr = true /\
  ends_not_found "found" = false /\
  ends_not_found ("not" +++ LF +++ "found" +++ LF) = true /\
  ends_not_found "" = false.
Proof. repeat split. Qed.

(** The direction of [x in item]: the token is looked for inside the
    vocabulary word. *)
Example changed_word_test_values :
  changed_word_test "pod/nginx created" = true /\
  changed_word_test "pod/nginx unmodified" = false /\
  changed_word_test "pod/nginx unchanged" = false /\
  changed_word_test "label" = true.
Proof. repeat split. Qed.

(** The scenario of the assembly for a file: [--no-headers] comes with
    [get] only. *)
Example flags_pod_yml :
  let self := nginx_rc "apply" None false in
  let self := {| kubectl := kubectl self; base_cmd := base_cmd self;
                 command := "apply"; resource := []; name := None;
                 keyvars := []; filter := None; filename := ["pod.yml"];
                 namespace := None; label := None; server := None;
                 kubeconfig := None; ignore := false; overwrite := false;
                 force := false; all := false; log_level := 0%Z;
                 safe_commands := safe_set; changed_words := vocabulary;
                 isdir := false; results := results self |} in
  _flags self ["apply"] false = Ok ["apply"; "--filename=pod.yml"] /\
  _flags self ["get"] true = Ok ["get"; "--filename=pod.yml"; "--no-headers"].
Proof. split; reflexivity. Qed.

Lemma append_if_app (b : bool) (toks cmd : list string) :
  append_if b toks cmd = cmd ++ opt_tok b toks.
Proof.
  destruct b; simpl; [reflexivity | now rewrite app_nil_r].
Qed.

Lemma truthy_list_nil {A : Type} (l : list A) :
  Py.truthy_list l = false <-> l = [].
Proof.
  destruct l; simpl; split; intro H; congruence.
Qed.


(** [_flags] on a vector that starts with a verb, when a resource type or
    a file is given. *)
Lemma _flags_shape (self : KubeManager) (verb : string) (rest : list string)
  (exists_ : bool) :
  Py.truthy_list (filename self) || Py.truthy_list (resource self) = true ->
  _flags self (verb :: rest) exists_ =
  Ok ((verb :: rest) ++ resource_tokens self exists_ ++
      trailing self exists_ verb).
Proof.
  intro Hset. unfold _flags.
  replace (negb (Py.truthy_list (filename self)) &&
           negb (Py.truthy_list (resource self))) with false
    by (rewrite <- negb_orb, Hset; reflexivity).
  repeat rewrite append_if_app.
  assert (Hres :
    match resource self with
    | [] => verb :: rest
    | r0 :: _ =>
        if exists_ then (verb :: rest) ++ [r0]
        else (verb :: rest) ++ resource self
    end = verb :: (rest ++ resource_tokens self exists_)).
  { unfold resource_tokens. destruct (resource self); simpl.
    - now rewrite app_nil_r.
    - destruct exists_; reflexivity. }
  rewrite Hres. clear Hres.
  assert (Hkv :
    forall c : list string,
      (if Py.truthy_list (keyvars self)
       then if negb exists_ then c ++ keyvars self else c
       else c) =
      c ++ opt_tok (Py.truthy_list (keyvars self) && negb exists_)
             (keyvars self)).
  { intro c. destruct (Py.truthy_list (keyvars self)), exists_; simpl;
      try reflexivity; now rewrite app_nil_r. }
  rewrite Hkv. clear Hkv.
  simpl. rewrite append_if_app. f_equal.
  unfold trailing. simpl. f_equal.
  repeat rewrite <- app_assoc. reflexivity.
Qed.

Lemma trailing_set_resource (l : list string) (self : KubeManager)
  (exists_ : bool) (verb : string) :
  trailing (set_resource l self) exists_ verb = trailing self exists_ verb.
Proof. reflexivity. Qed.

Lemma _flags_set_results (r : Results) (self : KubeManager)
  (cmd : list string) (exists_ : bool) :
  _flags (set_results r self) cmd exists_ = _flags self cmd exists_.
Proof. reflexivity. Qed.

Section ExecuteFacts.

Variable E : Env.

(** The three branches of [_execute] once the process has returned. *)
Lemma _execute_returned (st : State) (cmd : list string) (exists_ : bool)
  (rc : Z) (out err : string) :
  let args := base_cmd (kube st) ++ cmd in
  run_command E (calls st) args = Returned rc out err ->
  _execute E cmd exists_ st =
  if negb (Z.eqb rc 0) && negb (exists_ || isdir (kube st)) then
    (Exit (execution_error args rc out err), logged args st)
  else if negb (Z.eqb rc 0) && exists_ && ends_not_found err then
    (Ok tt, logged args st)
  else classify E args out (logged args st).
Proof.
  intros args Hrun. unfold _execute, run, get_self, bind. simpl.
  fold args. rewrite Hrun.
  destruct (negb (Z.eqb rc 0) && negb (exists_ || isdir (kube st)));
    [reflexivity|].
  destruct (negb (Z.eqb rc 0) && exists_ && ends_not_found err);
    reflexivity.
Qed.

Lemma _execute_raised (st : State) (cmd : list string) (exists_ : bool)
  (exc : string) :
  let args := base_cmd (kube st) ++ cmd in
  run_command E (calls st) args = Raised exc ->
  _execute E cmd exists_ st =
  (Exit (FailJson ("error running kubectl (" +++ Py.join " " args +++
                   ") command: " +++ exc)), logged args st).
Proof.
  intros args Hrun. unfold _execute, run, get_self, bind. simpl.
  fold args. rewrite Hrun. reflexivity.
Qed.

Lemma classify_plain (st : State) (args : list string) (out : string) :
  Py.truthy (filter (kube st)) = false ->
  classify E args out st =
  (Ok tt, {| kube := set_results (classified (kube st) out) (kube st);
             calls := calls st |}).
Proof.
  intro Hf. unfold classify, get_self, bind. rewrite Hf.
  unfold modify_results, modify_self, when, ret, classified. simpl.
  destruct (Py.truthy_list (Py.splitlines out)); simpl.
  - unfold changed_hits at 1. simpl.
    fold (changed_hits (kube st) out).
    destruct (Py.truthy_list (changed_hits (kube st) out)); simpl.
    + rewrite orb_true_r. reflexivity.
    + rewrite orb_false_r. destruct (kube st) as []; simpl.
      destruct results0; reflexivity.
  - rewrite orb_false_r. destruct (kube st) as []; simpl.
    destruct results0; reflexivity.
Qed.

Lemma classify_filtered (st : State) (args : list string) (out : string)
  (ms : list string) :
  Py.truthy (filter (kube st)) = true ->
  re_findall E (Py.text (filter (kube st))) out = Matches ms ->
  classify E args out st =
  (Ok tt, {| kube := set_results (set_meta ms (results (kube st))) (kube st);
             calls := calls st |}).
Proof.
  intros Hf Hm. unfold classify, get_self, bind, _filter.
  rewrite Hf, Hm. reflexivity.
Qed.

(** Whatever [classify] does, it only assigns [self.results]. *)
Lemma classify_frame (st st' : State) (args : list string) (out : string)
  (o : outcome unit) :
  classify E args out st = (o, st') ->
  calls st' = calls st /\
  (exists r, kube st' = set_results r (kube st)) /\
  (o = Ok tt \/ kube st' = kube st).
Proof.
  intro H.
  assert (Hsame : kube st = set_results (results (kube st)) (kube st))
    by (destruct (kube st); reflexivity).
  destruct (Py.truthy (filter (kube st))) eqn:Hf.
  - unfold classify, get_self, bind, _filter in H. rewrite Hf in H.
    destruct (re_findall E (Py.text (filter (kube st))) out) as [ms|exc].
    + injection H as Ho Hst. subst o st'. simpl.
      split; [reflexivity|]. split; eauto.
    + injection H as Ho Hst. subst o st'. simpl.
      split; [reflexivity|]. split; [eauto | now right].
  - rewrite (classify_plain st args out Hf) in H.
    injection H as Ho Hst. subst o st'. simpl.
    split; [reflexivity|]. split; eauto.
Qed.

(** [_execute] records exactly one call and only assigns [self.results]. *)
Lemma _execute_frame (st st' : State) (cmd : list string) (exists_ : bool)
  (o : outcome unit) :
  _execute E cmd exists_ st = (o, st') ->
  calls st' = calls st ++ [base_cmd (kube st) ++ cmd] /\
  exists r, kube st' = set_results r (kube st).
Proof.
  intro H.
  assert (Hsame : kube st = set_results (results (kube st)) (kube st))
    by (destruct (kube st); reflexivity).
  destruct (run_command E (calls st) (base_cmd (kube st) ++ cmd))
    as [rc out err|exc] eqn:Hrun.
  - rewrite (_execute_returned st cmd exists_ Hrun) in H.
    destruct (negb (Z.eqb rc 0) && negb (exists_ || isdir (kube st))).
    { injection H as Ho Hst. subst o st'. simpl. split; eauto. }
    destruct (negb (Z.eqb rc 0) && exists_ && ends_not_found err).
    { injection H as Ho Hst. subst o st'. simpl. split; eauto. }
    apply classify_frame in H. simpl in H.
    destruct H as [Hc [Hr _]]. split; assumption.
  - rewrite (_execute_raised st cmd exists_ Hrun) in H.
    injection H as Ho Hst. subst o st'. simpl. split; eauto.
Qed.

End ExecuteFacts.

(** ** Argument assembly *)

(** C6. With neither a resource type nor a file path set, argument
    assembly fails with the configuration error
    ["filename or resource required"], whatever the vector to extend (so
    for every verb) and both for the existence probe and for the action. *)
Theorem flags_requires_target (self : KubeManager) (cmd : list string)
  (exists_ : bool) :
  resource self = [] -> filename self = [] ->
  _flags self cmd exists_ = Exit (FailJson "filename or resource required").
Proof.
  intros Hr Hf. unfold _flags. rewrite Hr, Hf. reflexivity.
Qed.

Lemma flags_requires_target_witness :
  (resource untargeted = [] /\ filename untargeted = []) /\
  _flags untargeted ["get"] true =
    Exit (FailJson "filename or resource required") /\
  _flags untargeted ["apply"] false =
    Exit (FailJson "filename or resource required").
Proof.
  split; [split; reflexivity|].
  split; apply flags_requires_target; reflexivity.
Defined.

(** C7. With resource types [r0 :: rs] set, the vector of the [get] probe
    carries [r0] alone right after the verb, the vector of an action
    carries all of [r0 :: rs] in the given order right after the verb, and
    the tokens that follow do not depend on the resource types. *)
Theorem flags_resource_types (self : KubeManager) (r0 : string)
  (rs : list string) :
  resource self = r0 :: rs ->
  _flags self ["get"] true = Ok ("get" :: r0 :: trailing self true "get") /\
  (forall verb,
     _flags self [verb] false =
     Ok (verb :: (r0 :: rs) ++ trailing self false verb)) /\
  (forall l exists_ verb,
     trailing (set_resource l self) exists_ verb =
     trailing self exists_ verb).
Proof.
  intro Hr.
  assert (Hset :
    Py.truthy_list (filename self) || Py.truthy_list (resource self) = true)
    by (rewrite Hr; apply orb_true_r).
  split; [|split].
  - rewrite (_flags_shape self "get" [] true Hset).
    unfold resource_tokens. rewrite Hr. reflexivity.
  - intro verb. rewrite (_flags_shape self verb [] false Hset).
    unfold resource_tokens. rewrite Hr. reflexivity.
  - intros. apply trailing_set_resource.
Qed.

Lemma flags_resource_types_witness :
  let self := set_resource ["rc"; "svc"; "po"] (nginx_rc "apply" None false) in
  resource self = "rc" :: ["svc"; "po"] /\
  _flags self ["get"] true = Ok ["get"; "rc"; "nginx"; "--no-headers"] /\
  _flags self ["apply"] false = Ok ["apply"; "rc"; "svc"; "po"; "nginx"].
Proof.
  intro self.
  assert (Hr : resource self = "rc" :: ["svc"; "po"]) by reflexivity.
  destruct (flags_resource_types self Hr) as [Hprobe [Haction _]].
  split; [exact Hr|]. split.
  - exact Hprobe.
  - exact (Haction "apply").
Defined.

(** ** Output classification *)

Section Classification.

Variable E : Env.

(** C9. An exists-tolerant execution whose process exits non-zero with a
    standard error whose last two whitespace-separated tokens are
    [not found] returns normally, and the instance, so its Result Record,
    is as before; for a Result Record still at its initial value that is
    [changed = false], [meta = []], [msg = ""]. *)
Theorem execute_not_found_is_empty (st : State) (cmd : list string)
  (rc : Z) (out err : string) :
  run_command E (calls st) (base_cmd (kube st) ++ cmd) = Returned rc out err ->
  rc <> 0%Z ->
  ends_not_found err = true ->
  exists st',
    _execute E cmd true st = (Ok tt, st') /\
    kube st' = kube st /\
    (results (kube st) = initial_results ->
     results (kube st') = {| changed := false; meta := []; msg := "" |}).
Proof.
  intros Hrun Hrc Hnf.
  exists (logged (base_cmd (kube st) ++ cmd) st).
  rewrite (_execute_returned E st cmd true Hrun).
  apply Z.eqb_neq in Hrc. rewrite Hrc, Hnf. simpl.
  split; [reflexivity|]. split; [reflexivity|].
  intro Hinit. exact Hinit.
Qed.



End Classification.

Lemma execute_not_found_is_empty_witness :
  let E := host [] [Returned 1 "" not_found_stderr] in
  let st := fresh (nginx_rc "apply" None false) in
  (1 <> 0)%Z /\ ends_not_found not_found_stderr = true /\
  exists st',
    _execute E ["get"; "rc"; "nginx"; "--no-headers"] true st = (Ok tt, st') /\
    results (kube st') = {| changed := false; meta := []; msg := "" |}.
Proof.
  intros E st.
  assert (Hrc : (1 <> 0)%Z) by discriminate.
  split; [exact Hrc|]. split; [reflexivity|].
  destruct (@execute_not_found_is_empty E st
              ["get"; "rc"; "nginx"; "--no-headers"] 1%Z "" not_found_stderr
              eq_refl Hrc eq_refl) as [st' [Hrun [_ Hres]]].
  exists st'. split; [exact Hrun | exact (Hres eq_refl)].
Defined.



(** ** Non-zero exits *)

Section NonZeroExit.

Variable E : Env.

(** C3, as the code has it. A non-zero exit of an exists-tolerant
    execution never is the failure that carries command, exit code and
    output, in directory mode or out of it: with a standard error ending
    in [not found] the instance is left as it was, and with any other
    standard error the output is classified as it is after a zero exit.
    That failure is what a non-zero exit gives for an execution that is
    neither exists-tolerant nor in directory mode. *)
Theorem execute_nonzero_exit (st : State) (cmd : list string) (rc : Z)
  (out err : string) :
  let args := base_cmd (kube st) ++ cmd in
  run_command E (calls st) args = Returned rc out err ->
  rc <> 0%Z ->
  (ends_not_found err = true ->
   _execute E cmd true st = (Ok tt, logged args st)) /\
  (ends_not_found err = false ->
   _execute E cmd true st = classify E args out (logged args st) /\
   forall E0,
     run_command E0 (calls st) args = Returned 0 out err ->
     re_findall E0 = re_findall E ->
     _execute E0 cmd true st = _execute E cmd true st) /\
  (isdir (kube st) = false ->
   _execute E cmd false st =
   (Exit (execution_error args rc out err), logged args st)).
Proof.
  intros args Hrun Hrc. apply Z.eqb_neq in Hrc.
  split; [|split]; intro Hx.
  - rewrite (_execute_returned E st cmd true Hrun).
    rewrite Hrc, Hx. reflexivity.
  - assert (Hgo : _execute E cmd true st =
                  classify E args out (logged args st)).
    { rewrite (_execute_returned E st cmd true Hrun).
      rewrite Hrc, Hx. reflexivity. }
    split; [exact Hgo|].
    intros E0 Hrun0 Hre. rewrite Hgo.
    rewrite (_execute_returned E0 st cmd true Hrun0). simpl.
    fold args. unfold classify, _filter. rewrite Hre. reflexivity.
  - rewrite (_execute_returned E st cmd false Hrun).
    rewrite Hrc, Hx. reflexivity.
Qed.

End NonZeroExit.

(** C3, as stated, fails: the probe of a cluster that cannot be reached
    (exit 1, a standard error that does not end in [not found]), outside
    directory mode, returns normally with an empty [meta]. *)
Lemma probe_unreachable_is_not_an_error :
  let err := "Unable to connect to the server: dial tcp: i/o timeout" in
  let E := host [] [Returned 1 "" err] in
  let st := fresh (nginx_rc "apply" None false) in
  let probe := ["get"; "rc"; "nginx"; "--no-headers"] in
  isdir (kube st) = false /\
  ends_not_found err = false /\
  _execute E probe true st =
    (Ok tt,
     {| kube :=
          set_results
            {| changed := false; meta := [];
               msg := "successfully ran kubectl (apply) command" |}
            (kube st);
        calls := [["/usr/bin/kubectl"; "get"; "rc"; "nginx"; "--no-headers"]]
     |}) /\
  fst (_execute E probe true st) <>
    Exit (execution_error ("/usr/bin/kubectl" :: probe) 1 "" err).
Proof.
  intros err E st probe.
  split; [reflexivity|]. split; [reflexivity|].
  split; [reflexivity | discriminate].
Qed.

Lemma execute_nonzero_exit_witness :
  let refused := "The connection to the server was refused" in
  let st := fresh (nginx_rc "apply" None false) in
  let probe := ["get"; "rc"; "nginx"; "--no-headers"] in
  (1 <> 0)%Z /\
  _execute (host [] [Returned 1 "" not_found_stderr]) probe true st =
    (Ok tt, logged ("/usr/bin/kubectl" :: probe) st) /\
  _execute (host [] [Returned 1 "" refused]) probe true st =
    _execute (host [] [Returned 0 "" refused]) probe true st /\
  _execute (host [] [Returned 1 "" refused]) ["apply"; "rc"; "nginx"] false st
  = (Exit (FailJson
       ("error running kubectl (/usr/bin/kubectl apply rc nginx) command " +++
        "(rc=1), out='', err='The connection to the server was refused'")),
     logged ["/usr/bin/kubectl"; "apply"; "rc"; "nginx"] st).
Proof.
  intros refused st probe.
  assert (Hrc : (1 <> 0)%Z) by discriminate.
  split; [exact Hrc|]. split; [|split].
  - destruct (@execute_nonzero_exit (host [] [Returned 1 "" not_found_stderr])
                st probe 1%Z "" not_found_stderr eq_refl Hrc) as [Hnf _].
    exact (Hnf eq_refl).
  - destruct (@execute_nonzero_exit (host [] [Returned 1 "" refused])
                st probe 1%Z "" refused eq_refl Hrc) as [_ [Hother _]].
    destruct (Hother eq_refl) as [_ Hzero].
    symmetry. exact (Hzero (host [] [Returned 0 "" refused]) eq_refl eq_refl).
  - destruct (@execute_nonzero_exit (host [] [Returned 1 "" refused])
                st ["apply"; "rc"; "nginx"] 1%Z "" refused eq_refl Hrc)
      as [_ [_ Hhard]].
    exact (Hhard eq_refl).
Defined.

(** ** The existence probe and the lifecycle *)

Section Lifecycle.

Variable E : Env.

(** [_exists], step by step. *)
Lemma _exists_unfold (st : State) :
  _exists E st =
  match _flags (kube st) ["get"] true with
  | Exit f => (Exit f, st)
  | Ok probe =>
      match _execute E probe true st with
      | (Ok _, st1) => (Ok (Py.truthy_list (meta (results (kube st1)))), st1)
      | (Exit f, st1) => (Exit f, st1)
      end
  end.
Proof.
  unfold _exists, flags, lift, get_self, bind, ret.
  destruct (_flags (kube st) ["get"] true) as [probe|f]; [|reflexivity].
  destruct (_execute E probe true st) as [[[]|f] st1]; [|reflexivity].
  destruct (Py.truthy_list (meta (results (kube st1)))); reflexivity.
Qed.

(** A probe that answers has run exactly its [get] vector and has only
    assigned [self.results]. *)
Lemma _exists_answer (st st1 : State) (b : bool) :
  _exists E st = (Ok b, st1) ->
  exists probe,
    _flags (kube st) ["get"] true = Ok probe /\
    _execute E probe true st = (Ok tt, st1) /\
    b = Py.truthy_list (meta (results (kube st1))) /\
    calls st1 = calls st ++ [base_cmd (kube st) ++ probe] /\
    exists r, kube st1 = set_results r (kube st).
Proof.
  rewrite _exists_unfold.
  destruct (_flags (kube st) ["get"] true) as [probe|f]; [|discriminate].
  destruct (_execute E probe true st) as [[[]|f] st'] eqn:Hexec;
    [|discriminate].
  intro H. injection H as Hb Hst. subst st'.
  exists probe. split; [reflexivity|]. split; [exact Hexec|].
  split; [now symmetry|].
  exact (_execute_frame E st probe true Hexec).
Qed.

(** [create(check=False)], step by step. *)
Lemma create_nocheck_unfold (st : State) :
  create E false st =
  if String.eqb (command (kube st)) "delete" then
    (Exit (FailJson "use state=absent instead of command=delete"), st)
  else
    match _flags (kube st) [command (kube st)] false with
    | Exit f => (Exit f, st)
    | Ok cmd => _execute E cmd false st
    end.
Proof.
  unfold create, flags, lift, when, fail_json, fail, get_self, bind, ret.
  destruct (String.eqb (command (kube st)) "delete"); [reflexivity|].
  simpl.
  destruct (_flags (kube st) [command (kube st)] false); reflexivity.
Qed.

(** [create(check=True)], step by step. *)
Lemma create_check_unfold (st : State) :
  create E true st =
  if String.eqb (command (kube st)) "delete" then
    (Exit (FailJson "use state=absent instead of command=delete"), st)
  else
    match _exists E st with
    | (Exit f, st1) => (Exit f, st1)
    | (Ok found, st1) =>
        if found && negb (mem (command (kube st1)) (safe_commands (kube st1)))
        then (Ok tt, st1)
        else create E false st1
    end.
Proof.
  destruct (String.eqb (command (kube st)) "delete") eqn:Hd.
  { unfold create, when, fail_json, fail, get_self, bind, ret.
    rewrite Hd. reflexivity. }
  destruct (_exists E st) as [[found|f] st1] eqn:Hex.
  - assert (Hcmd : command (kube st1) = command (kube st)).
    { apply _exists_answer in Hex.
      destruct Hex as [probe [_ [_ [_ [_ [r Hr]]]]]]. rewrite Hr. reflexivity. }
    rewrite create_nocheck_unfold. rewrite Hcmd, Hd.
    unfold create, flags, lift, when, fail_json, fail, get_self, bind, ret.
    rewrite Hd, Hex. simpl. rewrite Hcmd.
    destruct (found && negb (mem (command (kube st)) (safe_commands (kube st1))));
      [reflexivity|].
    destruct (_flags (kube st1) [command (kube st)] false); reflexivity.
  - unfold create, when, fail_json, fail, get_self, bind, ret.
    rewrite Hd, Hex. reflexivity.
Qed.

(** [delete], step by step. *)
Lemma delete_unfold (st : State) :
  delete E st =
  let go (st1 : State) :=
    match _flags (kube st1) ["delete"] false with
    | Exit f => (Exit f, {| kube := set_command "delete" (kube st1);
                            calls := calls st1 |})
    | Ok cmd =>
        _execute E cmd false {| kube := set_command "delete" (kube st1);
                                calls := calls st1 |}
    end in
  if force (kube st) then go st
  else
    match _exists E st with
    | (Exit f, st1) => (Exit f, st1)
    | (Ok found, st1) => if found then go st1 else (Ok tt, st1)
    end.
Proof.
  unfold delete, flags, lift, modify_self, get_self, bind, ret.
  destruct (force (kube st)); simpl.
  - destruct (_flags (kube st) ["delete"] false) eqn:Hfl;
      change (_flags (set_command "delete" (kube st)) ["delete"] false)
        with (_flags (kube st) ["delete"] false); rewrite Hfl; reflexivity.
  - destruct (_exists E st) as [[[|]|f] st1]; reflexivity.
Qed.

(** The probe never assigns [self.isdir]. *)
Lemma _exists_isdir (st st1 : State) (o : outcome bool) :
  _exists E st = (o, st1) -> isdir (kube st1) = isdir (kube st).
Proof.
  rewrite _exists_unfold.
  destruct (_flags (kube st) ["get"] true) as [probe|f].
  - destruct (_execute E probe true st) as [[[]|f] st'] eqn:Hexec;
      same_state st';
      destruct (_execute_frame E st probe true Hexec) as [_ [r Hr]];
      rewrite Hr; reflexivity.
  - same_state st1. reflexivity.
Qed.

Lemma create_nocheck_isdir (st st' : State) (o : outcome unit) :
  create E false st = (o, st') -> isdir (kube st') = isdir (kube st).
Proof.
  rewrite create_nocheck_unfold.
  destruct (String.eqb (command (kube st)) "delete").
  { same_state st'. reflexivity. }
  destruct (_flags (kube st) [command (kube st)] false) as [cmd|f].
  - intro H. destruct (_execute_frame E st cmd false H) as [_ [r Hr]].
    rewrite Hr. reflexivity.
  - same_state st'. reflexivity.
Qed.

Lemma create_check_isdir (st st' : State) (o : outcome unit) :
  create E true st = (o, st') -> isdir (kube st') = isdir (kube st).
Proof.
  rewrite create_check_unfold.
  destruct (String.eqb (command (kube st)) "delete").
  { same_state st'. reflexivity. }
  destruct (_exists E st) as [[found|f] st1] eqn:Hex.
  - apply _exists_isdir in Hex.
    destruct (found && negb (mem (command (kube st1)) (safe_commands (kube st1)))).
    + same_state st'. exact Hex.
    + intro H. apply create_nocheck_isdir in H. congruence.
  - apply _exists_isdir in Hex.
    same_state st'. exact Hex.
Qed.

Lemma delete_isdir (st st' : State) (o : outcome unit) :
  delete E st = (o, st') -> isdir (kube st') = isdir (kube st).
Proof.
  rewrite delete_unfold. cbv zeta.
  assert (Hgo : forall st1,
    match _flags (kube st1) ["delete"] false with
    | Exit f => (Exit f, {| kube := set_command "delete" (kube st1);
                            calls := calls st1 |})
    | Ok cmd =>
        _execute E cmd false {| kube := set_command "delete" (kube st1);
                                calls := calls st1 |}
    end = (o, st') -> isdir (kube st') = isdir (kube st1)).
  { intro st1. destruct (_flags (kube st1) ["delete"] false) as [cmd|f].
    - intro H. destruct (_execute_frame E _ cmd false H) as [_ [r Hr]].
      rewrite Hr. reflexivity.
    - same_state st'. reflexivity. }
  destruct (force (kube st)); [apply Hgo|].
  destruct (_exists E st) as [[[|]|f] st1] eqn:Hex;
    apply _exists_isdir in Hex.
  - intro H. apply Hgo in H. congruence.
  - same_state st'. exact Hex.
  - same_state st'. exact Hex.
Qed.

Lemma _flags_ok_target (self : KubeManager) (cmd v : list string)
  (exists_ : bool) :
  _flags self cmd exists_ = Ok v ->
  Py.truthy_list (filename self) || Py.truthy_list (resource self) = true.
Proof.
  unfold _flags.
  destruct (Py.truthy_list (filename self)),
           (Py.truthy_list (resource self)); simpl;
    try reflexivity; discriminate.
Qed.


(** C5, as the code has it. Under [present] with a verb of the safe set
    the existence probe is run first all the same: the safe set is
    consulted only after the probe has answered. Whatever the probe
    answers, the configured verb is then assembled and executed; when the
    probe fails, so does [create]. *)
Theorem present_safe_verb_probes_first (st : State) :
  safe_commands (kube st) = safe_set ->
  mem (command (kube st)) safe_set = true ->
  (forall found st1,
     _exists E st = (Ok found, st1) ->
     exists probe cmd,
       _flags (kube st) ["get"] true = Ok probe /\
       calls st1 = calls st ++ [base_cmd (kube st) ++ probe] /\
       _flags (kube st) [command (kube st)] false = Ok cmd /\
       create E true st = _execute E cmd false st1 /\
       create E true st = create E false st1) /\
  (forall f st1,
     _exists E st = (Exit f, st1) -> create E true st = (Exit f, st1)).
Proof.
  intros Hset Hsafe.
  assert (Hd : String.eqb (command (kube st)) "delete" = false).
  { destruct (String.eqb_spec (command (kube st)) "delete") as [Heq|];
      [|reflexivity].
    rewrite Heq in Hsafe. discriminate. }
  split.
  - intros found st1 Hex.
    destruct (_exists_answer st Hex)
      as [probe [Hfl [_ [_ [Hcalls [r Hr]]]]]].
    assert (Htarget := _flags_ok_target _ _ _ Hfl).
    pose proof (_flags_shape (kube st) (command (kube st)) [] false Htarget)
      as Hcmd.
    exists probe. eexists.
    split; [exact Hfl|]. split; [exact Hcalls|]. split; [exact Hcmd|].
    assert (Hgo : create E true st = create E false st1).
    { rewrite create_check_unfold, Hd, Hex. rewrite Hr. simpl.
      rewrite Hset, Hsafe. rewrite andb_false_r. reflexivity. }
    split; [|exact Hgo].
    rewrite Hgo, create_nocheck_unfold. rewrite Hr. simpl.
    rewrite Hd. rewrite _flags_set_results, Hcmd. reflexivity.
  - intros f st1 Hex. rewrite create_check_unfold, Hd, Hex. reflexivity.
Qed.

End Lifecycle.



(** C5, as stated, fails: under [present] with the safe verb [describe]
    the run issues two commands, the [get] probe first and [describe]
    after it. *)
Lemma present_describe_probes :
  let listing := "nginx   1   1   1   5d" +++ LF in
  let E := host [] [Returned 0 listing ""; Returned 0 "Name: nginx" ""] in
  let p := task "describe" (Some ["rc"]) (Some "nginx") None None "present" in
  mem "describe" safe_set = true /\
  snd (main E p) =
    [["/usr/bin/kubectl"; "get"; "rc"; "nginx"; "--no-headers"];
     ["/usr/bin/kubectl"; "describe"; "rc"; "nginx"]] /\
  match fst (main E p) with
  | Ok r => meta r = ["Name: nginx"]
  | Exit _ => False
  end.
Proof.
  intros listing E p. split; [reflexivity|].
  split; vm_compute; reflexivity.
Qed.

Lemma present_safe_verb_probes_first_witness :
  let listing := "nginx   1   1   1   5d" +++ LF in
  let E := host [] [Returned 0 listing ""; Returned 0 "Name: nginx" ""] in
  let st := fresh (nginx_rc "describe" None false) in
  mem (command (kube st)) safe_set = true /\
  exists st1,
    _exists E st = (Ok true, st1) /\
    calls st1 = [["/usr/bin/kubectl"; "get"; "rc"; "nginx"; "--no-headers"]] /\
    create E true st = _execute E ["describe"; "rc"; "nginx"] false st1.
Proof.
  intros listing E st. split; [reflexivity|].
  destruct (@present_safe_verb_probes_first E st eq_refl eq_refl)
    as [Hanswer _].
  destruct (_exists E st) as [o st1] eqn:Hex.
  assert (Ho : o = Ok true) by (vm_compute in Hex; congruence).
  subst o. exists st1. split; [reflexivity|].
  destruct (Hanswer true st1 eq_refl)
    as [probe [cmd [Hprobe [Hcalls [Hcmd [Hrun _]]]]]].
  vm_compute in Hprobe. injection Hprobe as Hprobe. subst probe.
  vm_compute in Hcmd. injection Hcmd as Hcmd. subst cmd.
  split; [exact Hcalls | exact Hrun].
Defined.

(** ** The entry point *)

(** Under [latest], [main] evaluates the name [self], which it does not
    bind, before it reaches [create]: no command is run, for any options,
    and on a host where the instance can be built the run ends with the
    [NameError]. *)
Lemma main_latest_runs_nothing (E : Env) (p : Params) :
  p_state p = "latest" ->
  snd (main E p) = [] /\
  (forall k, __init__ E p = Ok k -> fst (main E p) = Exit (NameError "self")).
Proof.
  intro Hs. unfold main. rewrite Hs.
  destruct (__init__ E p) as [k|f]; simpl.
  - split; [reflexivity|]. intros; reflexivity.
  - split; [reflexivity|]. intros; discriminate.
Qed.

(** C1. The third task of [EXAMPLES] ([filename: /tmp/nginx.yml],
    [state: latest]) on a host with [kubectl]: the run ends with the
    [NameError] on [self] and has run no command, so no vector with
    [--overwrite] is assembled and the configured verb is not run. *)
Theorem main_latest_nginx_name_error :
  let E := host [] [Returned 0 ("replicationcontroller/nginx configured" +++ LF) ""] in
  let p := task "apply" None None (Some ["/tmp/nginx.yml"]) None "latest" in
  main E p = (Exit (NameError "self"), []).
Proof.
  intros E p. reflexivity.
Qed.

(** ** Directory mode *)

(** File paths after the first do not enter [__init__]'s decision. *)
Lemma init_isdir (E : Env) (p : Params) (k : KubeManager) :
  __init__ E p = Ok k ->
  filename k = stripped (p_filename p) /\
  isdir k =
    match filename k with
    | f0 :: _ => os_path_isdir E f0
    | [] => false
    end.
Proof.
  unfold __init__.
  destruct (match p_kubectl p with
            | Some k0 => Ok k0
            | None => get_bin_path E "kubectl"
            end) as [path|f]; [|discriminate].
  intro H. injection H as Hk. subst k. simpl.
  split; [reflexivity|].
  destruct (stripped (p_filename p)) as [|f0 fs]; [reflexivity|].
  destruct (os_path_isdir E f0); reflexivity.
Qed.

(** C10. For an instance built by [__init__], directory mode
    ([self.isdir]) is on exactly when the list of file paths is not empty
    and its first element is a directory. Nothing but that first element
    is consulted: two instances whose lists start with the same path, on
    hosts that agree on that path, are in the same mode. The mode is not
    changed by [create] or [delete], and while it is on no execution of the
    run, probe or not, takes the failure on a non-zero exit: the output is
    classified (or, for a probe answered with [not found], left aside). *)
Theorem directory_mode (E : Env) (p : Params) (k : KubeManager) :
  __init__ E p = Ok k ->
  (isdir k = true <->
   exists f0 fs, filename k = f0 :: fs /\ os_path_isdir E f0 = true) /\
  (forall E' p' k',
     __init__ E' p' = Ok k' ->
     hd_error (filename k') = hd_error (filename k) ->
     (forall f0, hd_error (filename k) = Some f0 ->
                 os_path_isdir E' f0 = os_path_isdir E f0) ->
     isdir k' = isdir k) /\
  (forall st st' o,
     kube st = k ->
     create E true st = (o, st') \/ create E false st = (o, st') \/
     delete E st = (o, st') ->
     isdir (kube st') = isdir k) /\
  (isdir k = true ->
   forall st cmd exists_ rc out err,
     isdir (kube st) = isdir k ->
     let args := base_cmd (kube st) ++ cmd in
     run_command E (calls st) args = Returned rc out err ->
     _execute E cmd exists_ st =
     if negb (Z.eqb rc 0) && exists_ && ends_not_found err
     then (Ok tt, logged args st)
     else classify E args out (logged args st)).
Proof.
  intro Hinit. destruct (init_isdir E p Hinit) as [_ Hdir].
  split; [|split; [|split]].
  - rewrite Hdir. destruct (filename k) as [|f0 fs].
    + split; [discriminate|]. intros [f [l [Hnil _]]]. discriminate.
    + split.
      * intro H. exists f0, fs. split; [reflexivity | exact H].
      * intros [f [l [Hcons H]]]. injection Hcons as Hf _. subst f. exact H.
  - intros E' p' k' Hinit' Hhd Hagree.
    destruct (init_isdir E' p' Hinit') as [_ Hdir'].
    rewrite Hdir, Hdir'.
    destruct (filename k) as [|f0 fs], (filename k') as [|f0' fs'];
      simpl in Hhd; try discriminate; [reflexivity|].
    injection Hhd as Hf. subst f0'. apply Hagree. reflexivity.
  - intros st st' o Hk [H | [H | H]]; subst k.
    + exact (create_check_isdir E st H).
    + exact (create_nocheck_isdir E st H).
    + exact (delete_isdir E st H).
  - intros Hon st cmd exists_ rc out err Hst args Hrun.
    rewrite (_execute_returned E st cmd exists_ Hrun).
    rewrite Hst, Hon. rewrite orb_true_r. simpl.
    rewrite andb_false_r. reflexivity.
Qed.

Lemma directory_mode_witness :
  let E := host ["/etc/kube"] [Returned 1 "" "error: unable to decode README"] in
  let p := task "apply" None None (Some ["/etc/kube"; "/tmp/extra.yml"]) None
             "present" in
  exists k,
    __init__ E p = Ok k /\
    isdir k = true /\
    _execute E ["apply"; "--filename=/etc/kube,/tmp/extra.yml"] false (fresh k)
    = (Ok tt,
       {| kube :=
            set_results
              {| changed := false; meta := [];
                 msg := "successfully ran kubectl (apply) command" |} k;
          calls := [["/usr/bin/kubectl"; "apply";
                     "--filename=/etc/kube,/tmp/extra.yml"]] |}).
Proof.
  intros E p.
  destruct (__init__ E p) as [k|f] eqn:Hinit; [|discriminate].
  exists k. split; [reflexivity|].
  destruct (@directory_mode E p k Hinit) as [Hiff [_ [_ Hrun]]].
  assert (Hk : Ok k = __init__ E p) by (symmetry; exact Hinit).
  vm_compute in Hk. injection Hk as Hk.
  assert (Hon : isdir k = true).
  { apply Hiff. exists "/etc/kube", ["/tmp/extra.yml"].
    subst k. split; reflexivity. }
  split; [exact Hon|].
  rewrite (Hrun Hon (fresh k) ["apply"; "--filename=/etc/kube,/tmp/extra.yml"]
             false 1%Z "" "error: unable to decode README" eq_refl).
  - subst k. reflexivity.
  - subst k. reflexivity.
Defined.

(** ** The run as a whole *)

Lemma set_results_command_id (k : KubeManager) :
  k = set_results (results k) (set_command (command k) k).
Proof. destruct k; reflexivity. Qed.

Lemma evolves_refl (st : State) : evolves 0 st st.
Proof.
  split; [exists (results (kube st)), (command (kube st));
          apply set_results_command_id|].
  split; [exists []; rewrite app_nil_r; repeat split; auto|].
  split; auto.
Qed.

Lemma evolves_trans (n m : nat) (a b c : State) :
  evolves n a b -> evolves m b c -> evolves (n + m) a c.
Proof.
  intros [[r1 [c1 Hk1]] [[l1 [Hc1 [Hn1 Hf1]]] [Hm1 Hp1]]]
         [[r2 [c2 Hk2]] [[l2 [Hc2 [Hn2 Hf2]]] [Hm2 Hp2]]].
  assert (Hbase : base_cmd (kube b) = base_cmd (kube a))
    by (rewrite Hk1; reflexivity).
  assert (Hfilter : filter (kube b) = filter (kube a))
    by (rewrite Hk1; reflexivity).
  split; [exists r2, c2; rewrite Hk2, Hk1; reflexivity|].
  split.
  { exists (l1 ++ l2). rewrite Hc2, Hc1, app_assoc.
    split; [reflexivity|]. split; [rewrite length_app; lia|].
    apply Forall_app. split; [exact Hf1|]. rewrite <- Hbase. exact Hf2. }
  split; [auto|].
  intro Hf. destruct (Hp1 Hf) as [Hch1 Hmsg1].
  rewrite Hfilter in Hp2. destruct (Hp2 Hf) as [Hch2 Hmsg2].
  split; congruence.
Qed.

Lemma evolves_weaken (n m : nat) (a b : State) :
  n <= m -> evolves n a b -> evolves m a b.
Proof.
  intros Hle [Hk [[l [Hc [Hn Hf]]] Hrest]].
  split; [exact Hk|]. split; [|exact Hrest].
  exists l. repeat split; [exact Hc | lia | exact Hf].
Qed.

Section RunFacts.

Variable E : Env.

Lemma classify_rejected (st : State) (args : list string) (out exc : string) :
  Py.truthy (filter (kube st)) = true ->
  re_findall E (Py.text (filter (kube st))) out = ReError exc ->
  classify E args out st =
  (Exit (FailJson ("error running kubectl (" +++ Py.join " " args +++
                   ") command: " +++ exc)), st).
Proof.
  intros Hf Hm. unfold classify, get_self, bind, _filter.
  rewrite Hf, Hm. reflexivity.
Qed.

(** A state that differs from [st] by one recorded command. *)
Lemma logged_evolves (st : State) (v : list string) :
  evolves 1 st (logged (base_cmd (kube st) ++ v) st).
Proof.
  split; [exists (results (kube st)), (command (kube st));
          apply set_results_command_id|].
  split; [|split; simpl; auto].
  exists [base_cmd (kube st) ++ v]. simpl.
  repeat split; [lia|]. constructor; [now exists v | constructor].
Qed.

Lemma classify_evolves (st st' : State) (args : list string) (out : string)
  (o : outcome unit) :
  classify E args out st = (o, st') -> evolves 0 st st'.
Proof.
  intro H. destruct (Py.truthy (filter (kube st))) eqn:Hf.
  - destruct (re_findall E (Py.text (filter (kube st))) out) as [ms|exc]
      eqn:Hm.
    + rewrite (classify_filtered E st args out Hf Hm) in H.
      injection H as _ Hst. subst st'.
      split; [exists (set_meta ms (results (kube st))), (command (kube st));
              destruct (kube st); reflexivity|].
      split; [exists []; simpl; rewrite app_nil_r; repeat split; auto|].
      split; simpl; auto.
    + rewrite (classify_rejected st args out Hf Hm) in H.
      injection H as _ Hst. subst st'. apply evolves_refl.
  - rewrite (classify_plain E st args out Hf) in H.
    injection H as _ Hst. subst st'.
    split; [exists (classified (kube st) out), (command (kube st));
            destruct (kube st); reflexivity|].
    split; [exists []; simpl; rewrite app_nil_r; repeat split; auto|].
    split; simpl.
    + intro Hc. rewrite Hc. reflexivity.
    + rewrite Hf. discriminate.
Qed.

Lemma _execute_evolves (st st' : State) (cmd : list string) (exists_ : bool)
  (o : outcome unit) :
  _execute E cmd exists_ st = (o, st') -> evolves 1 st st'.
Proof.
  intro H.
  destruct (run_command E (calls st) (base_cmd (kube st) ++ cmd))
    as [rc out err|exc] eqn:Hrun.
  - rewrite (_execute_returned E st cmd exists_ Hrun) in H.
    destruct (negb (Z.eqb rc 0) && negb (exists_ || isdir (kube st))).
    { injection H as _ Hst. subst st'. apply logged_evolves. }
    destruct (negb (Z.eqb rc 0) && exists_ && ends_not_found err).
    { injection H as _ Hst. subst st'. apply logged_evolves. }
    apply classify_evolves in H.
    exact (evolves_trans (logged_evolves st cmd) H).
  - rewrite (_execute_raised E st cmd exists_ Hrun) in H.
    injection H as _ Hst. subst st'. apply logged_evolves.
Qed.

Lemma _exists_evolves (st st' : State) (o : outcome bool) :
  _exists E st = (o, st') -> evolves 1 st st'.
Proof.
  rewrite _exists_unfold.
  destruct (_flags (kube st) ["get"] true) as [probe|f].
  - destruct (_execute E probe true st) as [[[]|f] st1] eqn:Hexec;
      same_state st'; exact (_execute_evolves st probe true Hexec).
  - same_state st'. apply (evolves_weaken (n := 0)); [lia|].
    apply evolves_refl.
Qed.

Lemma create_nocheck_evolves (st st' : State) (o : outcome unit) :
  create E false st = (o, st') -> evolves 1 st st'.
Proof.
  rewrite create_nocheck_unfold.
  assert (Hstay : evolves 1 st st)
    by (apply (evolves_weaken (n := 0)); [lia | apply evolves_refl]).
  destruct (String.eqb (command (kube st)) "delete");
    [same_state st'; exact Hstay|].
  destruct (_flags (kube st) [command (kube st)] false) as [cmd|f];
    [|same_state st'; exact Hstay].
  apply _execute_evolves.
Qed.

Lemma create_check_evolves (st st' : State) (o : outcome unit) :
  create E true st = (o, st') -> evolves 2 st st'.
Proof.
  rewrite create_check_unfold.
  destruct (String.eqb (command (kube st)) "delete").
  { same_state st'. apply (evolves_weaken (n := 0)); [lia|].
    apply evolves_refl. }
  destruct (_exists E st) as [[found|f] st1] eqn:Hex;
    apply _exists_evolves in Hex.
  - destruct (found && negb (mem (command (kube st1)) (safe_commands (kube st1)))).
    + same_state st'. apply (evolves_weaken (n := 1)); [lia | exact Hex].
    + intro H. apply create_nocheck_evolves in H.
      exact (evolves_trans Hex H).
  - same_state st'. apply (evolves_weaken (n := 1)); [lia | exact Hex].
Qed.

Lemma deleting_evolves (st : State) : evolves 0 st (deleting st).
Proof.
  split; [exists (results (kube st)), "delete"; reflexivity|].
  split; [exists []; simpl; rewrite app_nil_r; repeat split; auto|].
  split; simpl; auto.
Qed.

Lemma delete_evolves (st st' : State) (o : outcome unit) :
  delete E st = (o, st') -> evolves 2 st st'.
Proof.
  rewrite delete_unfold. cbv zeta.
  assert (Hgo : forall st1,
    match _flags (kube st1) ["delete"] false with
    | Exit f => (Exit f, {| kube := set_command "delete" (kube st1);
                            calls := calls st1 |})
    | Ok cmd =>
        _execute E cmd false {| kube := set_command "delete" (kube st1);
                                calls := calls st1 |}
    end = (o, st') -> evolves 1 st1 st').
  { intro st1. destruct (_flags (kube st1) ["delete"] false) as [cmd|f].
    - intro H. apply _execute_evolves in H.
      exact (evolves_trans (deleting_evolves st1) H).
    - same_state st'. apply (evolves_weaken (n := 0)); [lia|].
      apply (deleting_evolves st1). }
  destruct (force (kube st)).
  { intro H. apply (evolves_weaken (n := 1)); [lia | exact (Hgo st H)]. }
  destruct (_exists E st) as [[[|]|f] st1] eqn:Hex;
    apply _exists_evolves in Hex.
  - intro H. exact (evolves_trans Hex (Hgo st1 H)).
  - same_state st'. apply (evolves_weaken (n := 1)); [lia | exact Hex].
  - same_state st'. apply (evolves_weaken (n := 1)); [lia | exact Hex].
Qed.

End RunFacts.

(** ** The probe and what follows it *)

Section ProbeFacts.

Variable E : Env.

Lemma flags_probe_vector (self : KubeManager) :
  targeted self = true -> _flags self ["get"] true = Ok (probe_vector self).
Proof. intro Ht. exact (_flags_shape self "get" [] true Ht). Qed.

Lemma flags_action_vector (self : KubeManager) :
  targeted self = true ->
  _flags self [command self] false = Ok (action_vector self).
Proof. intro Ht. exact (_flags_shape self (command self) [] false Ht). Qed.

Lemma flags_delete_vector (self : KubeManager) :
  targeted self = true ->
  _flags self ["delete"] false = Ok (delete_vector self).
Proof. intro Ht. exact (_flags_shape self "delete" [] false Ht). Qed.

Lemma flags_untargeted (self : KubeManager) (cmd : list string)
  (exists_ : bool) :
  targeted self = false ->
  _flags self cmd exists_ = Exit (FailJson "filename or resource required").
Proof.
  unfold targeted, _flags. intro Ht.
  apply orb_false_iff in Ht. destruct Ht as [Hf Hr].
  rewrite Hf, Hr. reflexivity.
Qed.

(** A probe that answered was run on a targeted instance. *)
Lemma _exists_targeted (st st1 : State) (b : bool) :
  _exists E st = (Ok b, st1) -> targeted (kube st) = true.
Proof.
  intro Hex. destruct (_exists_answer E st Hex) as [probe [Hfl _]].
  exact (_flags_ok_target _ _ _ Hfl).
Qed.

(** The probe, once its process has returned. *)
Lemma _exists_returned (st : State) (rc : Z) (out err : string) :
  let args := base_cmd (kube st) ++ probe_vector (kube st) in
  targeted (kube st) = true ->
  run_command E (calls st) args = Returned rc out err ->
  _exists E st =
  if negb (Z.eqb rc 0) && ends_not_found err then
    (Ok (Py.truthy_list (meta (results (kube st)))), logged args st)
  else
    match classify E args out (logged args st) with
    | (Ok _, st1) => (Ok (Py.truthy_list (meta (results (kube st1)))), st1)
    | (Exit f, st1) => (Exit f, st1)
    end.
Proof.
  intros args Ht Hrun. rewrite _exists_unfold, (flags_probe_vector _ Ht).
  rewrite (_execute_returned E st (probe_vector (kube st)) true Hrun).
  fold args. change (negb (true || isdir (kube st))) with false.
  rewrite andb_false_r, andb_true_r.
  destruct (negb (Z.eqb rc 0) && ends_not_found err); reflexivity.
Qed.

End ProbeFacts.

Section ProbeOutcomes.

Variable E : Env.

(** On an instance whose Result Record is still initial, one execution
    sets [changed] only together with a non-empty [meta]. *)
Lemma _execute_fresh_changed (st st' : State) (cmd : list string)
  (exists_ : bool) (o : outcome unit) :
  results (kube st) = initial_results ->
  _execute E cmd exists_ st = (o, st') ->
  changed (results (kube st')) = true ->
  Py.truthy_list (meta (results (kube st'))) = true.
Proof.
  intros Hinit H.
  destruct (run_command E (calls st) (base_cmd (kube st) ++ cmd))
    as [rc out err|exc] eqn:Hrun.
  - rewrite (_execute_returned E st cmd exists_ Hrun) in H.
    set (args := base_cmd (kube st) ++ cmd) in *.
    destruct (negb (Z.eqb rc 0) && negb (exists_ || isdir (kube st))).
    { injection H as _ Hst. subst st'. simpl. rewrite Hinit. discriminate. }
    destruct (negb (Z.eqb rc 0) && exists_ && ends_not_found err).
    { injection H as _ Hst. subst st'. simpl. rewrite Hinit. discriminate. }
    destruct (Py.truthy (filter (kube st))) eqn:Hf.
    + destruct (re_findall E (Py.text (filter (kube st))) out) as [ms|exc]
        eqn:Hm.
      * rewrite (@classify_filtered E (logged args st) args out ms Hf Hm) in H.
        injection H as _ Hst. subst st'. simpl. rewrite Hinit. discriminate.
      * rewrite (@classify_rejected E (logged args st) args out exc Hf Hm) in H.
        injection H as _ Hst. subst st'. simpl. rewrite Hinit. discriminate.
    + rewrite (@classify_plain E (logged args st) args out Hf) in H.
      injection H as _ Hst. subst st'. simpl. rewrite Hinit. simpl.
      intro Hc. apply andb_true_iff in Hc. tauto.
  - rewrite (_execute_raised E st cmd exists_ Hrun) in H.
    injection H as _ Hst. subst st'. simpl. rewrite Hinit. discriminate.
Qed.

(** X1. How the probe decides presence, for a targeted instance whose
    [get] process returned [(rc, out, err)]. A non-zero exit with a
    standard error ending in [not found] leaves [meta] alone, so a fresh
    instance reports absence. Otherwise, without a filter pattern, presence
    is "the standard output has at least one line", whatever the exit code
    and the standard error are; with a filter pattern it is "the pattern
    has at least one match". *)
Theorem probe_presence (st : State) (rc : Z) (out err : string) :
  let args := base_cmd (kube st) ++ probe_vector (kube st) in
  targeted (kube st) = true ->
  run_command E (calls st) args = Returned rc out err ->
  (rc <> 0%Z -> ends_not_found err = true ->
   results (kube st) = initial_results ->
   _exists E st = (Ok false, logged args st)) /\
  (rc = 0%Z \/ ends_not_found err = false ->
   Py.truthy (filter (kube st)) = false ->
   _exists E st =
   (Ok (Py.truthy_list (Py.splitlines out)),
    {| kube := set_results (classified (kube st) out) (kube st);
       calls := calls st ++ [args] |})) /\
  (rc = 0%Z \/ ends_not_found err = false ->
   Py.truthy (filter (kube st)) = true ->
   forall ms,
     re_findall E (Py.text (filter (kube st))) out = Matches ms ->
     _exists E st =
     (Ok (Py.truthy_list ms),
      {| kube := set_results (set_meta ms (results (kube st))) (kube st);
         calls := calls st ++ [args] |})).
Proof.
  intros args Ht Hrun.
  pose proof (_exists_returned E st Ht Hrun) as Hex. fold args in Hex.
  assert (Hpass : rc = 0%Z \/ ends_not_found err = false ->
                  negb (Z.eqb rc 0) && ends_not_found err = false).
  { intros [Hz | Hnf]; [subst rc; reflexivity | rewrite Hnf; apply andb_false_r]. }
  split; [|split].
  - intros Hrc Hnf Hinit. apply Z.eqb_neq in Hrc.
    rewrite Hex, Hrc, Hnf, Hinit. reflexivity.
  - intros Hgo Hf. rewrite Hex, (Hpass Hgo).
    rewrite (@classify_plain E (logged args st) args out Hf). reflexivity.
  - intros Hgo Hf ms Hm. rewrite Hex, (Hpass Hgo).
    rewrite (@classify_filtered E (logged args st) args out ms Hf Hm).
    reflexivity.
Qed.

(** X2. Under [present] (any verb but [delete]), when the probe reports
    the resource as absent, [create] goes on to run the vector of the
    configured verb, with all resource types and the key=value pairs, on
    the state the probe left. *)
Theorem present_absent_runs_verb (st st1 : State) :
  String.eqb (command (kube st)) "delete" = false ->
  _exists E st = (Ok false, st1) ->
  create E true st = _execute E (action_vector (kube st)) false st1 /\
  calls st1 = calls st ++ [base_cmd (kube st) ++ probe_vector (kube st)].
Proof.
  intros Hd Hex.
  pose proof (_exists_targeted E st Hex) as Ht.
  destruct (_exists_answer E st Hex) as [probe [Hfl [_ [_ [Hcalls [r Hr]]]]]].
  rewrite (flags_probe_vector _ Ht) in Hfl. injection Hfl as Hfl. subst probe.
  split; [|exact Hcalls].
  rewrite create_check_unfold, Hd, Hex. simpl.
  rewrite create_nocheck_unfold. rewrite Hr. simpl. rewrite Hd.
  rewrite _flags_set_results.
  rewrite (flags_action_vector _ Ht). reflexivity.
Qed.

(** X3. [delete] without [force], when the probe of a fresh instance
    reports the resource as absent: nothing is run after the probe,
    [self.command] keeps the configured verb, and the Result Record has
    [changed = false] and an empty [meta]. *)
Theorem delete_missing_is_noop (st st1 : State) :
  force (kube st) = false ->
  results (kube st) = initial_results ->
  _exists E st = (Ok false, st1) ->
  delete E st = (Ok tt, st1) /\
  calls st1 = calls st ++ [base_cmd (kube st) ++ probe_vector (kube st)] /\
  command (kube st1) = command (kube st) /\
  changed (results (kube st1)) = false /\
  meta (results (kube st1)) = [].
Proof.
  intros Hforce Hinit Hex.
  pose proof (_exists_targeted E st Hex) as Ht.
  destruct (_exists_answer E st Hex)
    as [probe [Hfl [Hexec [Hb [Hcalls [r Hr]]]]]].
  rewrite (flags_probe_vector _ Ht) in Hfl. injection Hfl as Hfl. subst probe.
  split; [rewrite delete_unfold, Hforce, Hex; reflexivity|].
  split; [exact Hcalls|]. split; [rewrite Hr; reflexivity|].
  split.
  - destruct (changed (results (kube st1))) eqn:Hc; [|reflexivity].
    rewrite (_execute_fresh_changed st _ true Hinit Hexec Hc) in Hb.
    discriminate.
  - symmetry in Hb. apply truthy_list_nil in Hb. exact Hb.
Qed.

(** X4. [delete] without [force], when the probe reports the resource as
    existing: after the probe, [self.command] becomes [delete] and the
    removal vector is run. That vector names all resource types and
    carries the key=value pairs, where the probe named the first type
    only. *)
Theorem delete_existing_runs_delete (st st1 : State) :
  force (kube st) = false ->
  _exists E st = (Ok true, st1) ->
  delete E st = _execute E (delete_vector (kube st)) false (deleting st1) /\
  calls (deleting st1) =
    calls st ++ [base_cmd (kube st) ++ probe_vector (kube st)] /\
  forall o st', delete E st = (o, st') ->
    command (kube st') = "delete" /\
    calls st' = calls st ++ [base_cmd (kube st) ++ probe_vector (kube st);
                             base_cmd (kube st) ++ delete_vector (kube st)].
Proof.
  intros Hforce Hex.
  pose proof (_exists_targeted E st Hex) as Ht.
  destruct (_exists_answer E st Hex) as [probe [Hfl [_ [_ [Hcalls [r Hr]]]]]].
  rewrite (flags_probe_vector _ Ht) in Hfl. injection Hfl as Hfl. subst probe.
  assert (Hgo : delete E st =
                _execute E (delete_vector (kube st)) false (deleting st1)).
  { assert (Hfl : _flags (kube st1) ["delete"] false =
                  Ok (delete_vector (kube st)))
      by (rewrite Hr, _flags_set_results; exact (flags_delete_vector _ Ht)).
    rewrite delete_unfold, Hforce, Hex. cbv beta iota zeta.
    rewrite Hfl. reflexivity. }
  split; [exact Hgo|]. split; [exact Hcalls|].
  intros o st' Hdel. rewrite Hgo in Hdel.
  destruct (_execute_frame E _ _ _ Hdel) as [Hc [r' Hr']].
  split; [rewrite Hr'; reflexivity|].
  rewrite Hc. simpl. rewrite Hcalls, Hr, <- app_assoc. reflexivity.
Qed.

(** X5. [delete] with [force]: no probe is run. On a targeted instance
    the one command of the step is the removal vector and [self.command]
    ends as [delete]; on an instance with neither resource type nor file
    the step fails with the configuration error, [self.command] already
    assigned. *)
Theorem delete_forced_skips_probe (st : State) :
  force (kube st) = true ->
  (targeted (kube st) = true ->
   delete E st = _execute E (delete_vector (kube st)) false (deleting st) /\
   forall o st', delete E st = (o, st') ->
     command (kube st') = "delete" /\
     calls st' = calls st ++ [base_cmd (kube st) ++ delete_vector (kube st)]) /\
  (targeted (kube st) = false ->
   delete E st =
   (Exit (FailJson "filename or resource required"), deleting st)).
Proof.
  intro Hforce. split; intro Ht.
  - assert (Hgo : delete E st =
                  _execute E (delete_vector (kube st)) false (deleting st)).
    { rewrite delete_unfold, Hforce. cbv beta iota zeta.
      rewrite (flags_delete_vector _ Ht). reflexivity. }
    split; [exact Hgo|].
    intros o st' Hdel. rewrite Hgo in Hdel.
    destruct (_execute_frame E _ _ _ Hdel) as [Hc [r' Hr']].
    split; [rewrite Hr'; reflexivity | exact Hc].
  - rewrite delete_unfold, Hforce. cbv beta iota zeta.
    rewrite (flags_untargeted _ ["delete"] false Ht). reflexivity.
Qed.

(** X6. A probe whose process cannot be launched ([run_command] raises)
    ends the step with a failure, although the probe tolerates every exit
    code: [create] does not go on to the configured verb, safe or not, and
    [delete] without [force] does not go on to the removal. *)
Theorem probe_launch_failure_is_fatal (st : State) (exc : string) :
  let args := base_cmd (kube st) ++ probe_vector (kube st) in
  let failed :=
    (Exit (FailJson ("error running kubectl (" +++ Py.join " " args +++
                     ") command: " +++ exc)), logged args st) in
  targeted (kube st) = true ->
  run_command E (calls st) args = Raised exc ->
  (String.eqb (command (kube st)) "delete" = false ->
   create E true st = failed) /\
  (force (kube st) = false -> delete E st = failed).
Proof.
  intros args failed Ht Hrun.
  assert (Hex : _exists E st =
    (Exit (FailJson ("error running kubectl (" +++ Py.join " " args +++
                     ") command: " +++ exc)), logged args st)).
  { rewrite _exists_unfold, (flags_probe_vector _ Ht).
    rewrite (_execute_raised E st (probe_vector (kube st)) true Hrun).
    reflexivity. }
  split.
  - intro Hd. rewrite create_check_unfold, Hd, Hex. reflexivity.
  - intro Hforce. rewrite delete_unfold, Hforce, Hex. reflexivity.
Qed.

(** X7. A filter pattern that [re.findall] rejects is found out only
    after the command has run: the execution is recorded in [calls], then
    fails with the text of the exception, and the Result Record is as
    before. *)
Theorem execute_bad_pattern (st : State) (cmd : list string) (exists_ : bool)
  (rc : Z) (out err exc : string) :
  let args := base_cmd (kube st) ++ cmd in
  Py.truthy (filter (kube st)) = true ->
  run_command E (calls st) args = Returned rc out err ->
  rc = 0%Z \/ tolerated (kube st) exists_ rc err ->
  re_findall E (Py.text (filter (kube st))) out = ReError exc ->
  _execute E cmd exists_ st =
  (Exit (FailJson ("error running kubectl (" +++ Py.join " " args +++
                   ") command: " +++ exc)),
   {| kube := kube st; calls := calls st ++ [args] |}).
Proof.
  intros args Hf Hrun Hrc Hm.
  rewrite (_execute_returned E st cmd exists_ Hrun). fold args.
  assert (Hgo :
    negb (Z.eqb rc 0) && negb (exists_ || isdir (kube st)) = false /\
    negb (Z.eqb rc 0) && exists_ && ends_not_found err = false).
  { destruct Hrc as [Hz | [Hnz [Htol Hnf]]].
    - subst rc. split; reflexivity.
    - split.
      + destruct Htol as [He | Hd]; [rewrite He | rewrite Hd];
          rewrite ?orb_true_r; simpl; apply andb_false_r.
      + destruct exists_; [|now rewrite andb_false_r].
        destruct (ends_not_found err); [|apply andb_false_r].
        exfalso. apply Hnf. split; reflexivity. }
  destruct Hgo as [H1 H2]. rewrite H1, H2.
  rewrite (@classify_rejected E (logged args st) args out exc Hf Hm).
  reflexivity.
Qed.

End ProbeOutcomes.

(** ** Whole runs of [main] *)

Lemma init_fields (E : Env) (p : Params) (k : KubeManager) :
  __init__ E p = Ok k ->
  base_cmd k = [kubectl k] /\
  command k = p_command p /\
  filter k = p_filter p /\
  force k = p_force p /\
  resource k = stripped (p_resource p) /\
  filename k = stripped (p_filename p) /\
  keyvars k = stripped (p_keyvars p) /\
  results k = initial_results.
Proof.
  unfold __init__.
  destruct (match p_kubectl p with
            | Some k0 => Ok k0
            | None => get_bin_path E "kubectl"
            end) as [path|f]; [|discriminate].
  intro H. injection H as Hk. subst k. simpl. repeat split.
Qed.

(** The steps [main] chooses between, by target state. *)
Lemma main_body_evolves (E : Env) (target : string) (st st' : State)
  (o : outcome unit) :
  (if String.eqb target "present" then create E true
   else if String.eqb target "absent" then delete E
   else if String.eqb target "latest" then
     (unbound (A := unit) "self" ;; create E false)%run
   else fail_json ("Unrecognized state " +++ target +++ ".")) st = (o, st') ->
  evolves 2 st st'.
Proof.
  assert (Hstay : evolves 2 st st)
    by (apply (evolves_weaken (n := 0)); [lia | apply evolves_refl]).
  destruct (String.eqb target "present"); [apply create_check_evolves|].
  destruct (String.eqb target "absent"); [apply delete_evolves|].
  destruct (String.eqb target "latest").
  - unfold unbound, fail, bind. same_state st'. exact Hstay.
  - unfold fail_json, fail. same_state st'. exact Hstay.
Qed.

(** [main] in terms of the final state of its step. *)
Lemma main_unfold (E : Env) (p : Params) (k : KubeManager) :
  __init__ E p = Ok k ->
  exists (o : outcome unit) (st : State),
    evolves 2 (fresh k) st /\
    snd (main E p) = calls st /\
    fst (main E p) =
      match o with
      | Ok _ => Ok (results (kube st))
      | Exit f => Exit f
      end.
Proof.
  intro Hinit. unfold main. rewrite Hinit. cbv zeta.
  destruct ((if String.eqb (p_state p) "present" then create E true
             else if String.eqb (p_state p) "absent" then delete E
             else if String.eqb (p_state p) "latest" then
               (unbound (A := unit) "self" ;; create E false)%run
             else fail_json ("Unrecognized state " +++ p_state p +++ "."))
            {| kube := k; calls := [] |}) as [o st] eqn:Hbody.
  exists o, st. split; [exact (main_body_evolves E _ _ Hbody)|].
  destruct o; split; reflexivity.
Qed.

(** X8. A run of [main] hands at most two command vectors to
    [run_command], and each of them starts with the path of the [kubectl]
    binary the instance was built with. *)
Theorem main_runs_at_most_two_commands (E : Env) (p : Params) :
  length (snd (main E p)) <= 2 /\
  Forall (fun args =>
            match __init__ E p with
            | Ok k => hd_error args = Some (kubectl k)
            | Exit _ => False
            end) (snd (main E p)).
Proof.
  destruct (__init__ E p) as [k|f] eqn:Hinit.
  - destruct (main_unfold E p Hinit)
      as [o [st [[_ [[l [Hc [Hn Hf]]] _]] [Hsnd _]]]].
    rewrite Hsnd, Hc. simpl. split; [exact Hn|].
    destruct (init_fields E p Hinit) as [Hbase _].
    simpl in Hf. rewrite Hbase in Hf.
    eapply Forall_impl; [|exact Hf].
    intros args [v Hv]. subst args. reflexivity.
  - unfold main. rewrite Hinit. simpl. split; [lia | constructor].
Qed.

(** X9. A run with a filter pattern set, when it ends normally, reports
    [changed = false] and an empty [msg], whatever the commands printed:
    [_execute] assigns both under the [else] of [if self.filter] only. *)
Theorem main_filter_reports_unchanged (E : Env) (p : Params) (r : Results) :
  Py.truthy (p_filter p) = true ->
  fst (main E p) = Ok r ->
  changed r = false /\ msg r = "".
Proof.
  intros Hf Hmain.
  destruct (__init__ E p) as [k|f] eqn:Hinit.
  - destruct (main_unfold E p Hinit)
      as [o [st [[_ [_ [_ Hkeep]]] [_ Hfst]]]].
    destruct (init_fields E p Hinit) as [_ [_ [Hfilter [_ [_ [_ [_ Hres]]]]]]].
    simpl in Hkeep. rewrite Hfilter, Hres in Hkeep.
    destruct (Hkeep Hf) as [Hc Hm].
    rewrite Hfst in Hmain. destruct o; [|discriminate].
    injection Hmain as Hr. subst r. split; assumption.
  - unfold main in Hmain. rewrite Hinit in Hmain. discriminate.
Qed.

Section Monotone.

Variable E : Env.

(** X10. No step of a run clears [changed]: once [True], it is [True]
    after every later [_execute], [create] and [delete], so a flag the
    probe has set survives an action whose output names no vocabulary
    word. *)
Theorem changed_is_never_cleared (st st' : State) (o : outcome unit)
  (cmd : list string) (exists_ check : bool) :
  changed (results (kube st)) = true ->
  _execute E cmd exists_ st = (o, st') \/
  create E check st = (o, st') \/
  delete E st = (o, st') ->
  changed (results (kube st')) = true.
Proof.
  intros Hc [H | [H | H]].
  - apply _execute_evolves in H. destruct H as [_ [_ [Hm _]]]. auto.
  - destruct check.
    + apply create_check_evolves in H. destruct H as [_ [_ [Hm _]]]. auto.
    + apply create_nocheck_evolves in H. destruct H as [_ [_ [Hm _]]]. auto.
  - apply delete_evolves in H. destruct H as [_ [_ [Hm _]]]. auto.
Qed.

End Monotone.

(** X11. A target state other than [present], [absent] and [latest] (the
    argument specification also admits [reloaded] and [stopped]) makes
    [main] fail with [Unrecognized state ...] before any command is
    run. *)
Theorem main_unrecognized_state (E : Env) (p : Params) (k : KubeManager) :
  __init__ E p = Ok k ->
  p_state p <> "present" -> p_state p <> "absent" -> p_state p <> "latest" ->
  main E p =
  (Exit (FailJson ("Unrecognized state " +++ p_state p +++ ".")), []).
Proof.
  intros Hinit Hp Ha Hl. unfold main. rewrite Hinit.
  apply String.eqb_neq in Hp, Ha, Hl. rewrite Hp, Ha, Hl. reflexivity.
Qed.

(** X12. Under [present], the verb [delete] is refused before the probe:
    [main] fails with [use state=absent instead of command=delete] and no
    command is run. *)
Theorem main_present_rejects_delete (E : Env) (p : Params) (k : KubeManager) :
  __init__ E p = Ok k ->
  p_state p = "present" -> p_command p = "delete" ->
  main E p =
  (Exit (FailJson "use state=absent instead of command=delete"), []).
Proof.
  intros Hinit Hs Hc. unfold main. rewrite Hinit, Hs. simpl.
  rewrite create_check_unfold.
  destruct (init_fields E p Hinit) as [_ [Hcmd _]].
  simpl. rewrite Hcmd, Hc. reflexivity.
Qed.

(** X13. With neither resource type nor file path given (after the
    entries are stripped), [present] and [absent] fail with
    [filename or resource required] before any command is run, forced or
    not. *)
Theorem main_untargeted_fails (E : Env) (p : Params) (k : KubeManager) :
  __init__ E p = Ok k ->
  stripped (p_resource p) = [] -> stripped (p_filename p) = [] ->
  (p_state p = "present" /\ p_command p <> "delete") \/ p_state p = "absent" ->
  main E p = (Exit (FailJson "filename or resource required"), []).
Proof.
  intros Hinit Hr Hf Hstate.
  destruct (init_fields E p Hinit)
    as [_ [Hcmd [_ [_ [Hres [Hfile _]]]]]].
  assert (Ht : targeted k = false)
    by (unfold targeted; rewrite Hres, Hfile, Hr, Hf; reflexivity).
  assert (Hex : _exists E (fresh k) =
                (Exit (FailJson "filename or resource required"), fresh k)).
  { rewrite _exists_unfold. simpl.
    rewrite (flags_untargeted k ["get"] true Ht). reflexivity. }
  unfold main. rewrite Hinit.
  destruct Hstate as [[Hs Hd] | Hs]; rewrite Hs; simpl.
  - fold (fresh k). rewrite create_check_unfold. simpl.
    rewrite Hcmd. apply String.eqb_neq in Hd. rewrite Hd.
    rewrite Hex. reflexivity.
  - fold (fresh k). rewrite delete_unfold. cbv beta iota zeta.
    destruct (force (kube (fresh k))).
    + simpl. rewrite (flags_untargeted k ["delete"] false Ht). reflexivity.
    + rewrite Hex. reflexivity.
Qed.

(** X14. The path of the binary. A path given in the options is used as
    it is, and [get_bin_path] is not asked; when none is given and
    [kubectl] is not found on the host, [main] ends with the failure of
    [get_bin_path] and runs nothing. *)
Theorem main_kubectl_path (E : Env) (p : Params) :
  (forall path, p_kubectl p = Some path ->
     exists k, __init__ E p = Ok k /\ base_cmd k = [path] /\
       forall E', os_path_isdir E' = os_path_isdir E ->
                  __init__ E' p = Ok k) /\
  (forall f, p_kubectl p = None -> get_bin_path E "kubectl" = Exit f ->
     main E p = (Exit f, [])).
Proof.
  split.
  - intros path Hk. unfold __init__. rewrite Hk.
    eexists. split; [reflexivity|]. split; [reflexivity|].
    intros E' Hdir. rewrite Hdir. reflexivity.
  - intros f Hk Hbin. unfold main, __init__. rewrite Hk, Hbin. reflexivity.
Qed.

(** ** More on argument assembly *)

(** [_flags] for any vector to extend. *)
Lemma _flags_general (self : KubeManager) (cmd : list string)
  (exists_ : bool) :
  targeted self = true ->
  let v := cmd ++ resource_tokens self exists_ ++ trailing self exists_ "" in
  _flags self cmd exists_ =
  match v with
  | c0 :: _ => Ok (v ++ opt_tok (String.eqb c0 "get") ["--no-headers"])
  | [] => Exit IndexError
  end.
Proof.
  intros Hset v. unfold _flags.
  replace (negb (Py.truthy_list (filename self)) &&
           negb (Py.truthy_list (resource self))) with false
    by (rewrite <- negb_orb; unfold targeted in Hset; rewrite Hset;
        reflexivity).
  repeat rewrite append_if_app.
  assert (Hres :
    match resource self with
    | [] => cmd
    | r0 :: _ => if exists_ then cmd ++ [r0] else cmd ++ resource self
    end = cmd ++ resource_tokens self exists_).
  { unfold resource_tokens. destruct (resource self); simpl.
    - now rewrite app_nil_r.
    - destruct exists_; reflexivity. }
  rewrite Hres. clear Hres.
  assert (Hkv :
    forall c : list string,
      (if Py.truthy_list (keyvars self)
       then if negb exists_ then c ++ keyvars self else c
       else c) =
      c ++ opt_tok (Py.truthy_list (keyvars self) && negb exists_)
             (keyvars self)).
  { intro c. destruct (Py.truthy_list (keyvars self)), exists_; simpl;
      try reflexivity; now rewrite app_nil_r. }
  rewrite Hkv. clear Hkv.
  match goal with
  | |- match ?L with _ => _ end = _ => replace L with v
  end.
  - destruct v; [reflexivity|]. now rewrite append_if_app.
  - unfold v, trailing. simpl opt_tok at 13.
    repeat rewrite <- app_assoc. rewrite app_nil_r. reflexivity.
Qed.

Lemma targeted_tokens (self : KubeManager) (exists_ : bool) :
  targeted self = true ->
  resource_tokens self exists_ ++ trailing self exists_ "" <> [].
Proof.
  unfold targeted, resource_tokens. intros Ht Hnil.
  apply app_eq_nil in Hnil. destruct Hnil as [Hr Htr].
  destruct (resource self) as [|r0 rs] eqn:Hres.
  - rewrite orb_false_r in Ht.
    assert (Hin : In ("--filename=" +++ Py.join "," (filename self))
                     (trailing self exists_ "")).
    { unfold trailing. rewrite Ht.
      apply in_or_app. right. apply in_or_app. right.
      apply in_or_app. left. left. reflexivity. }
    rewrite Htr in Hin. exact Hin.
  - destruct exists_; discriminate.
Qed.

(** X15. [_flags] only appends: for a targeted instance the result is
    the vector it was given followed by at least one token, so the read of
    [cmd[0]] at its end never fails, even for an empty vector; for an
    instance without target it is the configuration error. *)
Theorem flags_extends_vector (self : KubeManager) (cmd : list string)
  (exists_ : bool) :
  (targeted self = false /\
   _flags self cmd exists_ = Exit (FailJson "filename or resource required"))
  \/
  (targeted self = true /\
   exists suffix, suffix <> [] /\ _flags self cmd exists_ = Ok (cmd ++ suffix)).
Proof.
  destruct (targeted self) eqn:Ht.
  - right. split; [reflexivity|].
    rewrite (_flags_general self cmd exists_ Ht). cbv zeta.
    pose proof (targeted_tokens self exists_ Ht) as Hne.
    set (toks := resource_tokens self exists_ ++ trailing self exists_ "")
      in *.
    destruct (cmd ++ toks) as [|c0 v] eqn:Hv.
    + apply app_eq_nil in Hv. destruct Hv as [_ Hv]. contradiction.
    + exists (toks ++ opt_tok (String.eqb c0 "get") ["--no-headers"]).
      split.
      * intro Hnil. apply app_eq_nil in Hnil. destruct Hnil. contradiction.
      * rewrite app_assoc, Hv. reflexivity.
  - left. split; [reflexivity|]. exact (flags_untargeted self cmd exists_ Ht).
Qed.

(** X16. The key=value pairs never reach a probe: the vector [_flags]
    builds with [exists=True] is the same whatever the pairs are, while
    the vector of an action carries them, in their order, between the
    resource name and the [--filename=] token. *)
Theorem probe_omits_keyvars (self : KubeManager) (cmd l : list string) :
  _flags (set_keyvars l self) cmd true = _flags self cmd true /\
  forall verb, targeted self = true ->
    exists rest,
      _flags (set_keyvars l self) [verb] false =
      Ok (verb :: resource_tokens self false ++
          opt_tok (Py.truthy (name self)) [Py.text (name self)] ++ l ++ rest).
Proof.
  split.
  - unfold _flags. simpl.
    destruct (Py.truthy_list l), (Py.truthy_list (keyvars self)); reflexivity.
  - intros verb Ht.
    rewrite (_flags_shape (set_keyvars l self) verb [] false Ht).
    unfold trailing. simpl. rewrite andb_true_r.
    eexists. f_equal. f_equal. f_equal. f_equal.
    destruct l; simpl; reflexivity.
Qed.

(** ** The two tests on the text of the process *)

Lemma split_from_blank (ws : string) (acc : list ascii) :
  blank ws = true -> Py.split_from acc ws = Py.flush acc.
Proof.
  revert acc. induction ws as [|c ws IH]; intros acc Hb; [reflexivity|].
  simpl in Hb. apply andb_true_iff in Hb. destruct Hb as [Hc Hb].
  simpl. rewrite Hc, (IH [] Hb). apply app_nil_r.
Qed.

Lemma split_from_app_blank (s ws : string) (acc : list ascii) :
  blank ws = true -> Py.split_from acc (s +++ ws) = Py.split_from acc s.
Proof.
  intro Hb. revert acc. induction s as [|a s IH]; intro acc; simpl.
  - exact (split_from_blank ws acc Hb).
  - destruct (Py.isspace a); [rewrite IH; reflexivity | apply IH].
Qed.

Lemma split_from_app_space (s t : string) (c : ascii) (acc : list ascii) :
  Py.isspace c = true ->
  Py.split_from acc (s +++ String c t) =
  Py.split_from acc s ++ Py.split_from [] t.
Proof.
  intro Hc. revert acc. induction s as [|a s IH]; intro acc; simpl.
  - rewrite Hc. reflexivity.
  - destruct (Py.isspace a); [rewrite IH, app_assoc; reflexivity | apply IH].
Qed.

Lemma last_n_app_two {A : Type} (l : list A) (a b : A) :
  Py.last_n 2 (l ++ [a; b]) = [a; b].
Proof.
  unfold Py.last_n. rewrite length_app. simpl.
  replace (length l + 2 - 2) with (length l + 0) by lia.
  rewrite skipn_app, Nat.add_0_r, skipn_all.
  replace (length l - length l) with 0 by lia. reflexivity.
Qed.

(** X17. The test for "does not exist" looks at the end of the standard
    error only: whatever comes first, a text that ends in the two words
    [not found], followed by nothing but whitespace (the final line
    break), passes it. *)
Theorem ends_not_found_suffix (s ws : string) :
  blank ws = true ->
  ends_not_found (s +++ " not found" +++ ws) = true /\
  ends_not_found ("not found" +++ ws) = true.
Proof.
  intro Hb.
  assert (Htail : Py.split_from [] ("not found" +++ ws) = ["not"; "found"]).
  { rewrite (split_from_app_blank "not found" ws [] Hb). reflexivity. }
  split; unfold ends_not_found, Py.split.
  - change (s +++ " not found" +++ ws)
      with (s +++ String " "%char ("not found" +++ ws)).
    rewrite split_from_app_space by reflexivity.
    rewrite Htail, last_n_app_two. reflexivity.
  - rewrite Htail. reflexivity.
Qed.







(** ** The entries [__init__] stores *)

Lemma list_of_append (a b : string) :
  list_ascii_of_string (a +++ b) =
  list_ascii_of_string a ++ list_ascii_of_string b.
Proof. induction a as [|c a IH]; simpl; [reflexivity | now rewrite IH]. Qed.

Lemma string_of_app (l1 l2 : list ascii) :
  string_of_list_ascii (l1 ++ l2) =
  string_of_list_ascii l1 +++ string_of_list_ascii l2.
Proof. induction l1 as [|c l1 IH]; simpl; [reflexivity | now rewrite IH]. Qed.

Lemma reverse_append (a b : string) :
  Py.reverse (a +++ b) = Py.reverse b +++ Py.reverse a.
Proof.
  unfold Py.reverse. rewrite list_of_append, rev_app_distr.
  apply string_of_app.
Qed.

Lemma reverse_involutive (s : string) : Py.reverse (Py.reverse s) = s.
Proof.
  unfold Py.reverse.
  rewrite list_ascii_of_string_of_list_ascii, rev_involutive.
  apply string_of_list_ascii_of_string.
Qed.

Lemma lstrip_lead (s : string) : lead_space (Py.lstrip s) = false.
Proof.
  induction s as [|c s IH]; simpl; [reflexivity|].
  destruct (Py.isspace c) eqn:Hc; [exact IH | simpl; exact Hc].
Qed.

Lemma lstrip_clean (s : string) : lead_space s = false -> Py.lstrip s = s.
Proof. destruct s as [|c s]; simpl; [reflexivity|]. now intros ->. Qed.

(** [lstrip] drops a prefix. *)
Lemma lstrip_suffix (s : string) : exists w, s = w +++ Py.lstrip s.
Proof.
  induction s as [|c s [w IH]]; simpl; [now exists ""|].
  destruct (Py.isspace c).
  - exists (String c w). simpl. now rewrite <- IH.
  - now exists "".
Qed.

(** [rstrip] drops a suffix. *)
Lemma rstrip_prefix (s : string) : exists z, s = Py.rstrip s +++ z.
Proof.
  unfold Py.rstrip. destruct (lstrip_suffix (Py.reverse s)) as [w Hw].
  exists (Py.reverse w).
  rewrite <- reverse_append, <- Hw. symmetry. apply reverse_involutive.
Qed.

Lemma rstrip_lead (s : string) :
  lead_space s = false -> lead_space (Py.rstrip s) = false.
Proof.
  intro Hs. destruct (rstrip_prefix s) as [z Hz].
  destruct (Py.rstrip s) as [|c r]; [reflexivity|].
  rewrite Hz in Hs. exact Hs.
Qed.

Lemma strip_trimmed (s : string) : trimmed (Py.strip s) = true.
Proof.
  unfold trimmed, Py.strip.
  rewrite (rstrip_lead _ (lstrip_lead s)).
  unfold Py.rstrip. rewrite reverse_involutive, lstrip_lead. reflexivity.
Qed.

Lemma strip_clean (s : string) : trimmed s = true -> Py.strip s = s.
Proof.
  unfold trimmed. intro H. apply andb_true_iff in H. destruct H as [Hl Hr].
  apply negb_true_iff in Hl, Hr.
  unfold Py.strip, Py.rstrip.
  rewrite (lstrip_clean _ Hl), (lstrip_clean _ Hr).
  apply reverse_involutive.
Qed.

Lemma stripped_trimmed (o : option (list string)) :
  Forall (fun x => trimmed x = true) (stripped o).
Proof.
  unfold stripped. apply Forall_forall. intros x Hx.
  apply in_map_iff in Hx. destruct Hx as [y [Hy _]]. subst x.
  apply strip_trimmed.
Qed.

(** X19. The resource types, key=value pairs and file paths an instance
    holds have no whitespace at either end, so a list written as
    [pods, svc] names [svc] and directory mode tests the stripped first
    path; entries that are clean already are kept as they are, in their
    order. *)
Theorem init_entries_stripped (E : Env) (p : Params) (k : KubeManager) :
  __init__ E p = Ok k ->
  Forall (fun x => trimmed x = true)
         (resource k ++ keyvars k ++ filename k) /\
  (forall l, Forall (fun x => trimmed x = true) l ->
     (p_resource p = Some l -> resource k = l) /\
     (p_keyvars p = Some l -> keyvars k = l) /\
     (p_filename p = Some l -> filename k = l)).
Proof.
  intro Hinit.
  destruct (init_fields E p Hinit) as [_ [_ [_ [_ [Hr [Hf [Hk _]]]]]]].
  split.
  - rewrite Hr, Hf, Hk. repeat (apply Forall_app; split);
      apply stripped_trimmed.
  - intros l Hl.
    assert (Hid : stripped (Some l) = l).
    { unfold stripped. induction Hl as [|x l Hx _ IH]; simpl; [reflexivity|].
      now rewrite (strip_clean x Hx), IH. }
    repeat split; intro Hp; [rewrite Hr | rewrite Hk | rewrite Hf];
      rewrite Hp; exact Hid.
Qed.

(** ** The properties above on concrete runs *)

Lemma probe_presence_witness :
  let st := fresh (nginx_rc "apply" None false) in
  let probe := ["/usr/bin/kubectl"; "get"; "rc"; "nginx"; "--no-headers"] in
  _exists (host [] [Returned 1 "" not_found_stderr]) st =
    (Ok false, logged probe st) /\
  fst (_exists (host [] [Returned 1 "" "connection refused"]) st) = Ok false /\
  fst (_exists (host [] [Returned 0 ("nginx 1 1 1 5d" +++ LF) ""])
         (fresh (nginx_rc "apply" (Some "nginx") false))) = Ok true.
Proof.
  intros st probe.
  assert (Hrc : (1 <> 0)%Z) by discriminate.
  split; [|split].
  - destruct (@probe_presence (host [] [Returned 1 "" not_found_stderr]) st
                1%Z "" not_found_stderr eq_refl eq_refl) as [Hnf _].
    exact (Hnf Hrc eq_refl eq_refl).
  - destruct (@probe_presence (host [] [Returned 1 "" "connection refused"])
                st 1%Z "" "connection refused" eq_refl eq_refl)
      as [_ [Hplain _]].
    rewrite (Hplain (or_intror eq_refl) eq_refl). reflexivity.
  - destruct (@probe_presence
                (host [] [Returned 0 ("nginx 1 1 1 5d" +++ LF) ""])
                (fresh (nginx_rc "apply" (Some "nginx") false))
                0%Z ("nginx 1 1 1 5d" +++ LF) "" eq_refl eq_refl)
      as [_ [_ Hfiltered]].
    rewrite (Hfiltered (or_introl eq_refl) eq_refl ["nginx"] eq_refl).
    reflexivity.
Defined.

Lemma present_absent_runs_verb_witness :
  let E := host [] [Returned 1 "" not_found_stderr;
                    Returned 0 created_stdout ""] in
  let st := fresh (nginx_rc "apply" None false) in
  let st1 := logged ["/usr/bin/kubectl"; "get"; "rc"; "nginx"; "--no-headers"]
               st in
  _exists E st = (Ok false, st1) /\
  create E true st = _execute E ["apply"; "rc"; "nginx"] false st1.
Proof.
  intros E st st1.
  assert (Hex : _exists E st = (Ok false, st1)) by reflexivity.
  split; [exact Hex|].
  destruct (@present_absent_runs_verb E st st1 eq_refl Hex) as [Hrun _].
  exact Hrun.
Defined.

Lemma delete_missing_is_noop_witness :
  let E := host [] [Returned 1 "" not_found_stderr] in
  let st := fresh (nginx_rc "apply" None false) in
  let st1 := logged ["/usr/bin/kubectl"; "get"; "rc"; "nginx"; "--no-headers"]
               st in
  _exists E st = (Ok false, st1) /\
  delete E st = (Ok tt, st1) /\
  changed (results (kube st1)) = false.
Proof.
  intros E st st1.
  assert (Hex : _exists E st = (Ok false, st1)) by reflexivity.
  split; [exact Hex|].
  destruct (@delete_missing_is_noop E st st1 eq_refl eq_refl Hex)
    as [Hdel [_ [_ [Hc _]]]].
  split; [exact Hdel | exact Hc].
Defined.

Lemma delete_existing_runs_delete_witness :
  let listing := "nginx   1   1   1   5d" +++ LF in
  let gone := "replicationcontroller " +++ dquote +++ "nginx" +++ dquote +++
              " deleted" in
  let E := host [] [Returned 0 listing ""; Returned 0 gone ""] in
  let st := fresh (nginx_rc "apply" None false) in
  exists st1,
    _exists E st = (Ok true, st1) /\
    delete E st = _execute E ["delete"; "rc"; "nginx"] false (deleting st1).
Proof.
  intros listing gone E st.
  destruct (_exists E st) as [o st1] eqn:Hex.
  assert (Ho : o = Ok true) by (vm_compute in Hex; congruence).
  subst o. exists st1. split; [reflexivity|].
  destruct (@delete_existing_runs_delete E st st1 eq_refl Hex) as [Hdel _].
  exact Hdel.
Defined.

Lemma delete_forced_skips_probe_witness :
  let gone := "replicationcontroller " +++ dquote +++ "nginx" +++ dquote +++
              " deleted" in
  let E := host [] [Returned 0 gone ""] in
  let st := fresh (set_force true (nginx_rc "apply" None false)) in
  force (kube st) = true /\
  delete E st =
    _execute E ["delete"; "rc"; "nginx"; "--force"] false (deleting st) /\
  delete E (fresh (set_force true untargeted)) =
    (Exit (FailJson "filename or resource required"),
     deleting (fresh (set_force true untargeted))).
Proof.
  intros gone E st. split; [reflexivity|]. split.
  - destruct (@delete_forced_skips_probe E st eq_refl) as [Hrun _].
    destruct (Hrun eq_refl) as [Hdel _]. exact Hdel.
  - destruct (@delete_forced_skips_probe E (fresh (set_force true untargeted))
                eq_refl) as [_ Hfail].
    exact (Hfail eq_refl).
Defined.

Lemma probe_launch_failure_is_fatal_witness :
  let E := host [] [Raised "[Errno 13] Permission denied"] in
  let st := fresh (nginx_rc "get" None false) in
  let failed :=
    (Exit (FailJson
       ("error running kubectl (/usr/bin/kubectl get rc nginx --no-headers) "
        +++ "command: [Errno 13] Permission denied")),
     logged ["/usr/bin/kubectl"; "get"; "rc"; "nginx"; "--no-headers"] st) in
  create E true st = failed /\ delete E st = failed.
Proof.
  intros E st failed.
  destruct (@probe_launch_failure_is_fatal E st
              "[Errno 13] Permission denied" eq_refl eq_refl)
    as [Hcreate Hdelete].
  split; [exact (Hcreate eq_refl) | exact (Hdelete eq_refl)].
Defined.

Lemma execute_bad_pattern_witness :
  let E := rejecting (host [] [Returned 0 created_stdout ""]) in
  let st := fresh (nginx_rc "apply" (Some "(nginx") false) in
  _execute E ["apply"; "rc"; "nginx"] false st =
  (Exit (FailJson
     ("error running kubectl (/usr/bin/kubectl apply rc nginx) command: " +++
      "unbalanced parenthesis")),
   {| kube := kube st;
      calls := [["/usr/bin/kubectl"; "apply"; "rc"; "nginx"]] |}).
Proof.
  intros E st.
  exact (@execute_bad_pattern E st ["apply"; "rc"; "nginx"] false 0%Z
           created_stdout "" "unbalanced parenthesis" eq_refl eq_refl
           (or_introl eq_refl) eq_refl).
Defined.

Lemma main_filter_reports_unchanged_witness :
  let E := host [] [Returned 1 "" not_found_stderr;
                    Returned 0 created_stdout ""] in
  let p := task "create" (Some ["rc"]) (Some "nginx") None (Some "created")
             "present" in
  let r := {| changed := false; meta := ["created"]; msg := "" |} in
  fst (main E p) = Ok r /\ changed r = false /\ msg r = "".
Proof.
  intros E p r.
  assert (Hmain : fst (main E p) = Ok r) by (vm_compute; reflexivity).
  split; [exact Hmain|].
  exact (@main_filter_reports_unchanged E p r eq_refl Hmain).
Defined.

Lemma changed_is_never_cleared_witness :
  let E := host [] [Returned 0 ("nginx   1   1   1   5d" +++ LF) ""] in
  let seen := {| changed := true; meta := ["rc/created"]; msg := "" |} in
  let st := fresh (set_results seen (nginx_rc "get" None false)) in
  exists o st',
    _execute E ["get"; "rc"; "nginx"; "--no-headers"] false st = (o, st') /\
    meta (results (kube st')) = ["nginx   1   1   1   5d"] /\
    changed (results (kube st')) = true.
Proof.
  intros E seen st.
  destruct (_execute E ["get"; "rc"; "nginx"; "--no-headers"] false st)
    as [o st'] eqn:Hrun.
  exists o, st'. split; [reflexivity|]. split.
  - vm_compute in Hrun. injection Hrun as _ Hst. subst st'. reflexivity.
  - exact (@changed_is_never_cleared E st st' o
             ["get"; "rc"; "nginx"; "--no-headers"] false true eq_refl
             (or_introl Hrun)).
Defined.

Lemma main_unrecognized_state_witness :
  let p := task "apply" (Some ["rc"]) (Some "nginx") None None "stopped" in
  main (host [] []) p = (Exit (FailJson "Unrecognized state stopped."), []).
Proof.
  intro p.
  destruct (__init__ (host [] []) p) as [k|f] eqn:Hinit; [|discriminate].
  apply (@main_unrecognized_state (host [] []) p k Hinit); discriminate.
Defined.

Lemma main_present_rejects_delete_witness :
  let p := task "delete" (Some ["rc"]) (Some "nginx") None None "present" in
  main (host [] []) p =
  (Exit (FailJson "use state=absent instead of command=delete"), []).
Proof.
  intro p.
  destruct (__init__ (host [] []) p) as [k|f] eqn:Hinit; [|discriminate].
  exact (@main_present_rejects_delete (host [] []) p k Hinit eq_refl eq_refl).
Defined.

Lemma main_untargeted_fails_witness :
  let p := task "apply" None (Some "nginx") None None "absent" in
  main (host [] []) p =
  (Exit (FailJson "filename or resource required"), []).
Proof.
  intro p.
  destruct (__init__ (host [] []) p) as [k|f] eqn:Hinit; [|discriminate].
  exact (@main_untargeted_fails (host [] []) p k Hinit eq_refl eq_refl
           (or_intror eq_refl)).
Defined.

Lemma main_kubectl_path_witness :
  let p := task "apply" (Some ["rc"]) (Some "nginx") None None "present" in
  main bare_host p =
  (Exit (FailJson "Failed to find required executable kubectl"), []).
Proof.
  intro p.
  destruct (main_kubectl_path bare_host p) as [_ Hmissing].
  exact (Hmissing _ eq_refl eq_refl).
Defined.

Lemma probe_omits_keyvars_witness :
  let self := nginx_rc "label" None false in
  _flags (set_keyvars ["tier=web"; "env=prod"] self) ["get"] true =
    Ok ["get"; "rc"; "nginx"; "--no-headers"] /\
  exists rest,
    _flags (set_keyvars ["tier=web"; "env=prod"] self) ["label"] false =
    Ok ("label" :: "rc" :: "nginx" :: "tier=web" :: "env=prod" :: rest).
Proof.
  intro self.
  destruct (probe_omits_keyvars self ["get"] ["tier=web"; "env=prod"])
    as [Hprobe Haction].
  split.
  - rewrite Hprobe. reflexivity.
  - destruct (Haction "label" eq_refl) as [rest Hrest].
    exists rest. exact Hrest.
Defined.

Lemma ends_not_found_suffix_witness :
  blank LF = true /\
  ends_not_found
    ("Error from server (NotFound): replicationcontrollers " +++ dquote +++
     "nginx" +++ dquote +++ " not found" +++ LF) = true.
Proof.
  split; [reflexivity|].
  destruct (@ends_not_found_suffix
              ("Error from server (NotFound): replicationcontrollers " +++
               dquote +++ "nginx" +++ dquote) LF eq_refl) as [Hlong _].
  exact Hlong.
Defined.


Lemma init_entries_stripped_witness :
  let p := task "get" (Some [" pods"; "svc "]) None None None "present" in
  exists k,
    __init__ (host [] []) p = Ok k /\ resource k = ["pods"; "svc"] /\
    Forall (fun x => trimmed x = true) (resource k ++ keyvars k ++ filename k).
Proof.
  intro p.
  destruct (__init__ (host [] []) p) as [k|f] eqn:Hinit; [|discriminate].
  exists k. split; [reflexivity|].
  destruct (@init_entries_stripped (host [] []) p k Hinit) as [Hclean _].
  split; [|exact Hclean].
  vm_compute in Hinit. injection Hinit as Hk. subst k. reflexivity.
Defined.

(** ** The probe before [get], and the lines of [meta] *)

Lemma probe_is_action (self : KubeManager) :
  command self = "get" -> length (resource self) <= 1 -> keyvars self = [] ->
  probe_vector self = action_vector self.
Proof.
  intros Hc Hr Hk. unfold probe_vector, action_vector, resource_tokens, trailing.
  rewrite Hc, Hk. simpl.
  destruct (resource self) as [|r0 [|r1 rs]]; simpl in *;
    [reflexivity | reflexivity | lia].
Qed.

(** X20. Under [present] with the verb [get], at most one resource type
    and no key=value pairs, the probe and the action are the same vector:
    when the probe answers, the step runs that one command twice in a
    row. *)
Theorem present_get_runs_twice (E : Env) (st st1 st' : State) (found : bool)
  (o : outcome unit) :
  safe_commands (kube st) = safe_set ->
  command (kube st) = "get" ->
  length (resource (kube st)) <= 1 ->
  keyvars (kube st) = [] ->
  _exists E st = (Ok found, st1) ->
  create E true st = (o, st') ->
  let v := base_cmd (kube st) ++ probe_vector (kube st) in
  calls st' = calls st ++ [v; v].
Proof.
  intros Hsafe Hc Hr Hk Hex Hcreate v.
  pose proof (_exists_targeted E st Hex) as Ht.
  destruct (_exists_answer E st Hex) as [probe [Hfl [_ [_ [Hcalls [r Hres]]]]]].
  rewrite (flags_probe_vector _ Ht) in Hfl. injection Hfl as Hfl. subst probe.
  assert (Hfl : _flags (kube st1) [command (kube st1)] false =
                Ok (probe_vector (kube st))).
  { rewrite Hres, _flags_set_results. simpl.
    rewrite (probe_is_action _ Hc Hr Hk).
    exact (flags_action_vector _ Ht). }
  rewrite create_check_unfold, Hc, Hex in Hcreate. simpl in Hcreate.
  assert (Hmem : mem (command (kube st1)) (safe_commands (kube st1)) = true)
    by (rewrite Hres; simpl; rewrite Hsafe, Hc; reflexivity).
  rewrite Hmem, andb_false_r in Hcreate.
  rewrite create_nocheck_unfold, Hfl in Hcreate.
  assert (Hnd : String.eqb (command (kube st1)) "delete" = false)
    by (rewrite Hres; simpl; rewrite Hc; reflexivity).
  rewrite Hnd in Hcreate.
  destruct (_execute_frame E _ _ _ Hcreate) as [Hc' _].
  rewrite Hc', Hcalls, <- app_assoc. rewrite Hres. reflexivity.
Qed.

Lemma present_get_runs_twice_witness :
  let listing := "nginx   1   1   1   5d" +++ LF in
  let E := host [] [Returned 0 listing ""; Returned 0 listing ""] in
  let p := task "get" (Some ["rc"]) (Some "nginx") None None "present" in
  let v := ["/usr/bin/kubectl"; "get"; "rc"; "nginx"; "--no-headers"] in
  snd (main E p) = [v; v] /\
  forall st1 st' found o,
    _exists E (fresh (nginx_rc "get" None false)) = (Ok found, st1) ->
    create E true (fresh (nginx_rc "get" None false)) = (o, st') ->
    calls st' = [v; v].
Proof.
  intros listing E p v. split; [vm_compute; reflexivity|].
  intros st1 st' found o Hex Hcreate.
  exact (@present_get_runs_twice E (fresh (nginx_rc "get" None false))
           st1 st' found o eq_refl eq_refl (le_n 1) eq_refl Hex Hcreate).
Defined.

Lemma one_line_of_list (l : list ascii) :
  one_line (string_of_list_ascii l) =
  forallb (fun c => negb (Py.is_lf c) && negb (Py.is_cr c)) l.
Proof. induction l as [|c l IH]; simpl; [reflexivity | now rewrite IH]. Qed.

Lemma one_line_of_rev (acc : list ascii) :
  forallb (fun c => negb (Py.is_lf c) && negb (Py.is_cr c)) acc = true ->
  one_line (Py.of_rev acc) = true.
Proof.
  unfold Py.of_rev. rewrite one_line_of_list, !forallb_forall.
  intros H c Hc. apply H. apply in_rev. exact Hc.
Qed.

Lemma splitlines_from_one_line (s : string) (acc : list ascii) :
  forallb (fun c => negb (Py.is_lf c) && negb (Py.is_cr c)) acc = true ->
  Forall (fun line => one_line line = true) (Py.splitlines_from acc s).
Proof.
  revert acc.
  induction s as [s IH] using (well_founded_induction
    (Wf_nat.well_founded_ltof _ String.length)).
  intros acc Hacc. destruct s as [|c s]; simpl.
  - unfold Py.flush. destruct acc; constructor;
      [apply one_line_of_rev; exact Hacc | constructor].
  - assert (Hnext : forall t, String.length t <= String.length s ->
              Forall (fun line => one_line line = true)
                     (Py.of_rev acc :: Py.splitlines_from [] t)).
    { intros t Ht. constructor; [apply one_line_of_rev; exact Hacc|].
      apply IH; [unfold Wf_nat.ltof; simpl; lia | reflexivity]. }
    destruct (Py.is_lf c) eqn:Hlf; [apply Hnext; lia|].
    destruct (Py.is_cr c) eqn:Hcr.
    + destruct s as [|c' s']; [apply Hnext; simpl; lia|].
      destruct (Py.is_lf c'); apply Hnext; simpl; lia.
    + apply IH; [unfold Wf_nat.ltof; simpl; lia|].
      simpl. rewrite Hlf, Hcr. exact Hacc.
Qed.

Lemma splitlines_from_nonempty (s : string) (acc : list ascii) :
  acc <> [] -> Py.splitlines_from acc s <> [].
Proof.
  revert acc. induction s as [|c s IH]; intros acc Hacc; simpl.
  - destruct acc; [contradiction | discriminate].
  - destruct (Py.is_lf c); [discriminate|].
    destruct (Py.is_cr c).
    + destruct s as [|c' s']; [discriminate|].
      destruct (Py.is_lf c'); discriminate.
    + apply IH. discriminate.
Qed.

(** X21. Without a filter pattern, no element of the [meta] a zero-exit
    execution leaves contains a line feed or a carriage return, and
    [meta] is empty exactly for an empty standard output. *)
Theorem meta_lines_are_single (E : Env) (st st' : State) (cmd : list string)
  (exists_ : bool) (out err : string) (o : outcome unit) :
  Py.truthy (filter (kube st)) = false ->
  run_command E (calls st) (base_cmd (kube st) ++ cmd) = Returned 0 out err ->
  _execute E cmd exists_ st = (o, st') ->
  Forall (fun line => one_line line = true) (meta (results (kube st'))) /\
  (meta (results (kube st')) = [] <-> out = "").
Proof.
  intros Hf Hrun Hexec.
  rewrite (_execute_returned E st cmd exists_ Hrun) in Hexec. simpl in Hexec.
  rewrite (@classify_plain E (logged (base_cmd (kube st) ++ cmd) st) _ out Hf)
    in Hexec.
  injection Hexec as _ Hst. subst st'. simpl. split.
  - apply splitlines_from_one_line. reflexivity.
  - unfold Py.splitlines. destruct out as [|c out]; [tauto|].
    split; [|discriminate]. simpl.
    destruct (Py.is_lf c); [discriminate|].
    destruct (Py.is_cr c).
    + destruct out as [|c' out']; [discriminate|].
      destruct (Py.is_lf c'); discriminate.
    + intro H. exfalso.
      apply (@splitlines_from_nonempty out [c]); [discriminate | exact H].
Qed.

Lemma meta_lines_are_single_witness :
  let out := "rc/a" +++ String (ascii_of_nat 13) LF +++ "rc/b" +++ LF in
  let E := host [] [Returned 0 out ""] in
  let st := fresh (nginx_rc "get" None false) in
  exists o st',
    _execute E ["get"; "rc"] false st = (o, st') /\
    meta (results (kube st')) = ["rc/a"; "rc/b"] /\
    Forall (fun line => one_line line = true) (meta (results (kube st'))).
Proof.
  intros out E st.
  destruct (_execute E ["get"; "rc"] false st) as [o st'] eqn:Hrun.
  exists o, st'. split; [reflexivity|].
  destruct (@meta_lines_are_single E st st' ["get"; "rc"] false out "" o
              eq_refl eq_refl Hrun) as [Hlines _].
  split; [|exact Hlines].
  vm_compute in Hrun. injection Hrun as _ Hst. subst st'. reflexivity.
Defined.
